(** * Database Forge: the catalog seeder and reporter of [database_forge.py]

    A shallow embedding of the program: the two mapped classes and their
    tables, the SQLAlchemy session over the SQLite file, the seeding function
    [populate_sample_data], the report [retrieve_and_display_data] and
    [main], followed by the properties the specification states about them.

    Modelling decisions, all of them visible in the definitions below:
    - a price is an IEEE 754 binary64 number ([spec_float] at precision 53);
      a Python literal such as [699.99] denotes the double nearest to it;
    - a table is the list of its rows in ascending rowid order, which is the
      order in which SQLite walks the table when a SELECT has no ORDER BY
      (none of the program's queries over several rows has one);
    - mapped instances live in a heap and are shared by reference between the
      local lists of the program and the session, so that the identifier a
      flush assigns is seen through every alias;
    - a Python exception is a value [Raise e] threaded by the monad [M],
      which also keeps a log of the constructions, inserts, commits and
      [session.query] calls of a run;
    - what [print] and [logger] write is not modelled: the report returns the
      values its [print] calls format.

    What the model leaves out, so that no property below speaks of it:
    - a file that is not an SQLite database, on which [create_all] raises;
    - a row whose [price] is not a REAL (SQLite does not enforce a column's
      type), on which the formatting of line 147 or the sum of line 160
      raises: in [Store] every price is a double;
    - the rowids SQLite draws at random once the largest one in use is
      [max_rowid]: [next_rowid] is SQLite's rule below that bound, and the
      properties that depend on the identifiers assigned state the bound;
    - the SELECT by which the session reloads an instance after a commit,
      which is not among the logged events;
    - the refusal of a session to be used again after a failed flush: the
      program never does, the exception leaves [main]. *)

From Stdlib Require Import ZArith QArith Qround Qabs Lia.
From Stdlib Require Import Floats.SpecFloat.
From stdpp Require Import gmap strings list sorting.

Open Scope string_scope.
Open Scope list_scope.
Open Scope Z_scope.

(** ** Python numbers *)

Definition float : Type := spec_float.
Definition prec : Z := 53.
Definition emax : Z := 1024.

(** [float(z)] for an integer [z], correctly rounded. *)
Definition float_of_Z (z : Z) : float := binary_normalize prec emax z 0 false.

Definition fadd : float -> float -> float := SFadd prec emax.
Definition fdiv : float -> float -> float := SFdiv prec emax.
Definition fltb : float -> float -> bool := SFltb.

(** The double a two-decimal literal denotes: [decimal 69999] is [699.99].
    Both operands are exact and the division rounds to nearest, so the
    result is the double nearest to the decimal, as the Python reader gives. *)
Definition decimal (cents : Z) : float := fdiv (float_of_Z cents) (float_of_Z 100).

(** The exact rational value of a finite double. *)
Definition Q_of_float (f : float) : Q :=
  match f with
  | S754_finite s m e =>
      let v := match e with
               | Z0 => inject_Z (Zpos m)
               | Zpos p => inject_Z (Zpos m * 2 ^ Zpos p)
               | Zneg p => Qmake (Zpos m) (2 ^ p)
               end in
      if s then Qopp v else v
  | _ => 0%Q
  end.

(** The cents a [.2f] format shows: the exact value times one hundred,
    rounded to the nearest integer, ties to even. *)
Definition cents_2f (f : float) : Z :=
  let q := Qred (Q_of_float f * 100) in
  let n := Qfloor q in
  match Qcompare (q - inject_Z n) (1 # 2) with
  | Lt => n
  | Gt => n + 1
  | Eq => if Z.even n then n else n + 1
  end.

Inductive number :=
| PyInt (z : Z)
| PyFloat (f : float).

Definition to_float (x : number) : float :=
  match x with
  | PyInt z => float_of_Z z
  | PyFloat f => f
  end.

Definition is_zero (x : number) : bool :=
  match x with
  | PyInt z => z =? 0
  | PyFloat (S754_zero _) => true
  | PyFloat _ => false
  end.

(** [x + y]: integer addition on two ints, float addition otherwise. *)
Definition py_add (x y : number) : number :=
  match x, y with
  | PyInt a, PyInt b => PyInt (a + b)
  | _, _ => PyFloat (fadd (to_float x) (to_float y))
  end.

(** [x == y] on numbers. *)
Definition py_eq (x y : number) : bool :=
  match x, y with
  | PyInt a, PyInt b => a =? b
  | _, _ => SFeqb (to_float x) (to_float y)
  end.

(** ** Exceptions and results *)

Record exn := Exn { exn_class : string; exn_arg : string }.

Definition ZeroDivisionError : exn := Exn "ZeroDivisionError" "division by zero".
Definition KeyError (key : string) : exn := Exn "KeyError" key.
Definition AttributeError (attr : string) : exn := Exn "AttributeError" attr.
Definition IntegrityError (constraint : string) : exn := Exn "IntegrityError" constraint.

Inductive result (A : Type) :=
| Return (a : A)
| Raise (e : exn).
Arguments Return {A} a.
Arguments Raise {A} e.

(** [x / y]: true division; the operands met here are small enough for
    their conversion to a double to be exact. *)
Definition py_truediv (x y : number) : result number :=
  if is_zero y then Raise ZeroDivisionError
  else Return (PyFloat (fdiv (to_float x) (to_float y))).

(** [sum(xs)]: starts from the int [0] and adds from left to right, as the
    language reference has it. (CPython 3.12 and later compensate the
    rounding error of a float sum; the difference is in the last bits and
    below what the properties of the average observe here.) *)
Definition py_sum (xs : list number) : number := fold_left py_add xs (PyInt 0).

(** ** The mapped classes and their tables *)

Module Category.
(** A row of table [categories]. *)
Record row := Row { category_id : Z; category_name : string }.
(** An instance of the class: [category_id] is [None] until a flush
    inserts the row and the store assigns the identifier. *)
Record obj := Obj { o_category_id : option Z; o_category_name : string }.
End Category.

Module Product.
(** A row of table [products]. *)
Record row := Row {
  product_id : Z;
  product_name : string;
  price : float;
  category_id : Z }.
Record obj := Obj {
  o_product_id : option Z;
  o_product_name : string;
  o_price : float;
  o_category_id : option Z }.
End Product.

(** The two tables of [database_forge.db], each in rowid order. *)
Record Store := MkStore {
  categories : list Category.row;
  products : list Product.row }.

Definition empty_store : Store := MkStore [] [].

(** The largest rowid SQLite can give: the column is a signed 64-bit
    integer. *)
Definition max_rowid : Z := 2 ^ 63 - 1.

(** The rowid SQLite gives a row inserted without one: 1 in an empty
    table, otherwise one more than the largest in use. This is SQLite's
    rule as long as the largest rowid in use is below [max_rowid]; with
    [max_rowid] in use SQLite tries unused rowids at random, which this
    function does not describe. *)
Definition next_rowid (ids : list Z) : Z :=
  match ids with
  | [] => 1
  | i :: rest => 1 + fold_left Z.max rest i
  end.

(** ** The interpreter heap, the session and its monad *)

Inductive object :=
| CategoryObj (c : Category.obj)
| ProductObj (p : Product.obj).

Definition ref : Type := nat.

(** The SELECT statements the program issues. *)
Inductive query :=
| QCategoryAll
| QCategoryCount
| QProductByCategory (cid : Z)
| QProductCount
| QProductPrices
| QProductPriceDescFirst
| QProductPriceAscFirst
| QProductJoinCategory.

Inductive event :=
| EvNew (r : ref) (o : object)
| EvAdd (r : ref)
| EvInsertCategory (row : Category.row)
| EvInsertProduct (row : Product.row)
| EvRollback
| EvCommit
| EvQuery (q : query)  (** a [session.query(...)] call of the program *).

Record state := MkState {
  db : Store;            (** the file as last committed *)
  txn : Store;           (** the rows the open transaction sees *)
  heap : list object;    (** mapped instances, by reference *)
  pending : list ref;    (** [session.new], in the order of [session.add] *)
  trace : list event   (** what happened so far, newest first *) }.

Definition M (A : Type) : Type := state -> result A * state.

Definition ret {A} (a : A) : M A := fun s => (Return a, s).
Definition raise {A} (e : exn) : M A := fun s => (Raise e, s).
Definition bind {A B} (c : M A) (k : A -> M B) : M B :=
  fun s =>
    match c s with
    | (Return a, s') => k a s'
    | (Raise e, s') => (Raise e, s')
    end.
Definition lift {A} (r : result A) : M A := fun s => (r, s).

Declare Scope py_scope.
Delimit Scope py_scope with py.
Notation "x <- c ;; k" := (bind c (fun x => k))
  (at level 100, c at next level, right associativity) : py_scope.
Notation "c ;; k" := (bind c (fun _ => k))
  (at level 100, right associativity) : py_scope.
Open Scope py_scope.

(** A [for] loop that collects one value per item. *)
Fixpoint for_each {A B} (xs : list A) (body : A -> M B) : M (list B) :=
  match xs with
  | [] => ret []
  | x :: rest => b <- body x ;; bs <- for_each rest body ;; ret (b :: bs)
  end.

Definition log (e : event) : M unit :=
  fun s => (Return tt, MkState (db s) (txn s) (heap s) (pending s) (e :: trace s)).

Definition set_pending (p : list ref) (s : state) : state :=
  MkState (db s) (txn s) (heap s) p (trace s).

(** [Category(...)] and [Product(...)]: a new instance on the heap. *)
Definition new (o : object) : M ref :=
  fun s =>
    let r := length (heap s) in
    (Return r,
     MkState (db s) (txn s) (heap s ++ [o]) (pending s) (EvNew r o :: trace s)).

(** [session.add(obj)]: the instance becomes pending, once. *)
Definition session_add (r : ref) : M unit :=
  fun s =>
    let p := if bool_decide (r ∈ pending s) then pending s else pending s ++ [r] in
    (Return tt, MkState (db s) (txn s) (heap s) p (EvAdd r :: trace s)).

(** Reading the attributes of a [Category] instance. After a commit the
    session reloads them from the row, which holds what the flush wrote
    into the instance; the SELECT of that reload is not logged. *)
Definition get_category (r : ref) : M Category.obj :=
  fun s =>
    match heap s !! r with
    | Some (CategoryObj c) => (Return c, s)
    | _ => (Raise (AttributeError "category_id"), s)
    end.

(** The INSERT of one pending instance inside the open transaction. The
    schema's constraints are checked by the store: [category_name] is
    UNIQUE and [products.category_id] is NOT NULL. The foreign key is
    declared but SQLite does not enforce it unless asked to, and the program
    never asks. The instance receives the rowid the store assigned. An
    instance that has its identifier is persistent already. *)
Definition flush_one (r : ref) : M unit :=
  fun s =>
    match heap s !! r with
    | Some (CategoryObj (Category.Obj None name)) =>
        if existsb (String.eqb name) (map Category.category_name (categories (txn s)))
        then (Raise (IntegrityError "UNIQUE constraint failed: categories.category_name"), s)
        else
          let id := next_rowid (map Category.category_id (categories (txn s))) in
          let row := Category.Row id name in
          (Return tt,
           MkState (db s)
             (MkStore (categories (txn s) ++ [row]) (products (txn s)))
             (<[r := CategoryObj (Category.Obj (Some id) name)]> (heap s))
             (pending s)
             (EvInsertCategory row :: trace s))
    | Some (ProductObj (Product.Obj None name price None)) =>
        (Raise (IntegrityError "NOT NULL constraint failed: products.category_id"), s)
    | Some (ProductObj (Product.Obj None name price (Some cid))) =>
        let id := next_rowid (map Product.product_id (products (txn s))) in
        let row := Product.Row id name price cid in
        (Return tt,
         MkState (db s)
           (MkStore (categories (txn s)) (products (txn s) ++ [row]))
           (<[r := ProductObj (Product.Obj (Some id) name price (Some cid))]> (heap s))
           (pending s)
           (EvInsertProduct row :: trace s))
    | _ => (Return tt, s)
    end.

Fixpoint flush_all (rs : list ref) : M unit :=
  match rs with
  | [] => ret tt
  | r :: rest => flush_one r ;; flush_all rest
  end.

(** [session.flush()]: the pending instances are inserted in the order
    they were added (each batch of this program holds instances of one
    class only); a failure rolls the transaction back. (The session then
    refuses further use until [rollback()] is called; the program never
    uses it again, the exception leaves [main].) *)
Definition flush : M unit :=
  fun s =>
    match flush_all (pending s) s with
    | (Return _, s') => (Return tt, set_pending [] s')
    | (Raise e, s') =>
        (Raise e, MkState (db s') (db s') (heap s') [] (EvRollback :: trace s'))
    end.

(** [session.commit()]: flush, then make the transaction's rows the file's. *)
Definition commit : M unit :=
  flush ;;
  fun s => (Return tt, MkState (txn s) (txn s) (heap s) (pending s) (EvCommit :: trace s)).

(** [session.close()]: whatever was not committed is dropped. *)
Definition session_close : M unit :=
  fun s => (Return tt, MkState (db s) (db s) (heap s) [] (trace s)).

(** A query: the session flushes what is pending, then the SELECT reads
    the rows the transaction sees. *)
Definition select {A} (q : query) (read : Store -> A) : M A :=
  flush ;;
  log (EvQuery q) ;;
  fun s => (Return (read (txn s)), s).

(** [ORDER BY price ... LIMIT 1]: the row no other row beats; among rows
    of equal price the one met first in rowid order is kept. *)
Definition first_by (better : float -> float -> bool) (rows : list Product.row)
  : option Product.row :=
  match rows with
  | [] => None
  | p :: rest =>
      Some (fold_left
              (fun best q => if better (Product.price q) (Product.price best) then q else best)
              rest p)
  end.

(** [FROM products JOIN categories ON categories.category_id =
    products.category_id]. *)
Definition join (st : Store) : list (Product.row * Category.row) :=
  flat_map
    (fun p =>
       map (fun c => (p, c))
         (List.filter (fun c => Category.category_id c =? Product.category_id p)
            (categories st)))
    (products st).

Definition query_Category_all : M (list Category.row) :=
  select QCategoryAll categories.
Definition query_Category_count : M Z :=
  select QCategoryCount (fun st => Z.of_nat (length (categories st))).
Definition query_Product_filter_by (cid : Z) : M (list Product.row) :=
  select (QProductByCategory cid)
    (fun st => List.filter (fun p => Product.category_id p =? cid) (products st)).
Definition query_Product_count : M Z :=
  select QProductCount (fun st => Z.of_nat (length (products st))).
Definition query_Product_prices : M (list float) :=
  select QProductPrices (fun st => map Product.price (products st)).
Definition query_Product_price_desc_first : M (option Product.row) :=
  select QProductPriceDescFirst (fun st => first_by (fun a b => fltb b a) (products st)).
Definition query_Product_price_asc_first : M (option Product.row) :=
  select QProductPriceAscFirst (fun st => first_by (fun a b => fltb a b) (products st)).
Definition query_Product_join_Category : M (list (Product.row * Category.row)) :=
  select QProductJoinCategory join.

(** ** [populate_sample_data] *)

Definition categories_data : list string :=
  ["Electronics"; "Clothing"; "Books"; "Home & Garden"; "Sports & Outdoors"].

Definition products_data : list (string * float * string) :=
  [ ("Smartphone", decimal 69999, "Electronics");
    ("Laptop", decimal 129999, "Electronics");
    ("Wireless Headphones", decimal 14999, "Electronics");
    ("Smart TV", decimal 59999, "Electronics");
    ("T-Shirt", decimal 1999, "Clothing");
    ("Jeans", decimal 5999, "Clothing");
    ("Running Shoes", decimal 8999, "Clothing");
    ("Winter Jacket", decimal 12999, "Clothing");
    ("Python Programming Book", decimal 3999, "Books");
    ("Data Science Handbook", decimal 4999, "Books");
    ("Science Fiction Novel", decimal 1499, "Books");
    ("Garden Hose", decimal 2499, "Home & Garden");
    ("Lawn Mower", decimal 29999, "Home & Garden");
    ("Plant Pot Set", decimal 3499, "Home & Garden");
    ("Basketball", decimal 2999, "Sports & Outdoors");
    ("Camping Tent", decimal 15999, "Sports & Outdoors");
    ("Yoga Mat", decimal 2499, "Sports & Outdoors") ].

(** Lines 72-76: one instance per name, added to the session. *)
Definition add_categories (names : list string) : M (list ref) :=
  for_each names
    (fun cat_name =>
       category <- new (CategoryObj (Category.Obj None cat_name)) ;;
       session_add category ;;
       ret category).

(** Line 104: [{cat.category_name: cat for cat in categories}]; a later
    instance of the same name replaces an earlier one. *)
Fixpoint build_category_map (cats : list ref) (m : gmap string ref)
  : M (gmap string ref) :=
  match cats with
  | [] => ret m
  | cat :: rest =>
      c <- get_category cat ;;
      build_category_map rest (<[Category.o_category_name c := cat]> m)
  end.

(** [category_map[cat_name]]. *)
Definition dict_get (m : gmap string ref) (k : string) : M ref :=
  match m !! k with
  | Some r => ret r
  | None => raise (KeyError k)
  end.

(** Lines 108-115, the body of the loop: the product is built with the
    identifier its category instance holds at that moment, then added to
    the session. *)
Definition add_product (category_map : gmap string ref)
    (item : string * float * string) : M ref :=
  let '(prod_name, price, cat_name) := item in
  cat <- dict_get category_map cat_name ;;
  c <- get_category cat ;;
  product <- new (ProductObj
                    (Product.Obj None prod_name price (Category.o_category_id c))) ;;
  session_add product ;;
  ret product.

Definition add_products (category_map : gmap string ref)
    (data : list (string * float * string)) : M (list ref) :=
  for_each data (add_product category_map).

(** Lines 72-79 and 104: the categories are added and committed, then the
    mapping from their names is built. *)
Definition seed_categories (names : list string) : M (gmap string ref) :=
  categories <- add_categories names ;;
  commit ;;
  build_category_map categories ∅.

(** The body of [populate_sample_data] over any two seed lists. *)
Definition seed (names : list string) (data : list (string * float * string)) : M unit :=
  category_map <- seed_categories names ;;
  products <- add_products category_map data ;;
  commit.

Definition populate_sample_data : M unit := seed categories_data products_data.

(** ** [retrieve_and_display_data] *)

(** Lines 145-148: [total_value] starts as the int [0]. *)
Definition total_value (ps : list Product.row) : number :=
  fold_left (fun acc p => py_add acc (PyFloat (Product.price p))) ps (PyInt 0).

Record Stats := MkStats {
  total_products : Z;
  total_categories : Z;
  avg_price : number;
  most_expensive : Product.row;
  least_expensive : Product.row }.

(** [x.product_name] where [x] is what [.first()] returned. *)
Definition some_product (x : option Product.row) : M Product.row :=
  match x with
  | Some p => ret p
  | None => raise (AttributeError "product_name")
  end.

(** Lines 157-172. *)
Definition overall_statistics : M Stats :=
  total_products <- query_Product_count ;;
  total_categories <- query_Category_count ;;
  average_price <- query_Product_prices ;;
  avg_price <- lift (py_truediv (py_sum (map PyFloat average_price))
                       (PyInt (Z.of_nat (length average_price)))) ;;
  most_expensive <- query_Product_price_desc_first ;;
  least_expensive <- query_Product_price_asc_first ;;
  most <- some_product most_expensive ;;
  least <- some_product least_expensive ;;
  ret (MkStats total_products total_categories avg_price most least).

Record Report := MkReport {
  listing : list Category.row;
  by_category : list (Category.row * list Product.row * number);
  stats : Stats;
  results : list (Product.row * Category.row) }.

(** Lines 139-150: the body of the loop over the categories. *)
Definition section_of (category : Category.row)
  : M (Category.row * list Product.row * number) :=
  products_in_category <- query_Product_filter_by (Category.category_id category) ;;
  ret (category, products_in_category, total_value products_in_category).

Definition retrieve_and_display_data : M Report :=
  categories <- query_Category_all ;;
  sections <- for_each categories section_of ;;
  statistics <- overall_statistics ;;
  results <- query_Product_join_Category ;;
  ret (MkReport categories sections statistics results).

(** ** [main] *)

(** [create_database]: the tables are created when the file has none.
    [file] is what lies at the path: nothing, or a database whose two
    tables hold the given rows. *)
Definition create_database (file : option Store) : Store := default empty_store file.

(** [Session()]: a new session on the engine, in a new interpreter. *)
Definition Session (engine : Store) : state := MkState engine engine [] [] [].

(** Lines 199-205. *)
Definition seed_if_empty : M unit :=
  existing_categories <- query_Category_count ;;
  if existing_categories =? 0 then populate_sample_data else ret tt.

Definition main (file : option Store) : result Report * state :=
  (seed_if_empty ;;
   report <- retrieve_and_display_data ;;
   session_close ;;
   ret report) (Session (create_database file)).

(** The store a first run leaves behind. *)
Definition seeded : state :=
  Eval vm_compute in snd (seed_if_empty (Session (create_database None))).

(** The events of a run in the order they happened. *)
Definition history (s : state) : list event := rev (trace s).

(** ** The vocabulary of the properties *)

(** [c] keeps [I], whether it returns or raises. *)
Definition preserves (I : state -> Prop) {A} (c : M A) : Prop :=
  forall s, I s -> I (snd (c s)).

(** The committed file is [d]. *)
Definition db_is (d : Store) (s : state) : Prop := db s = d.

(** A session on [d] and [t] with the instances [h] and nothing pending,
    which has logged nothing but queries since [tr]. *)
Definition settled_at (d t : Store) (h : list object) (tr : list event) (s : state)
  : Prop :=
  db s = d /\ txn s = t /\ heap s = h /\ pending s = [] /\
  exists qs, trace s = map EvQuery qs ++ tr.

(** Identifiers in strictly ascending order. *)
Definition ascending (ids : list Z) : Prop := StronglySorted Z.lt ids.

(** Both tables are in rowid order. *)
Definition rowid_order (st : Store) : Prop :=
  ascending (map Category.category_id (categories st)) /\
  ascending (map Product.product_id (products st)).

(** The file and the transaction's view are in rowid order. *)
Definition ordered (s : state) : Prop := rowid_order (db s) /\ rowid_order (txn s).

(** Each product has exactly one category row bearing its [category_id]. *)
Definition referential_integrity (st : Store) : Prop :=
  Forall
    (fun p =>
       length (List.filter
                 (fun c => Category.category_id c =? Product.category_id p)
                 (categories st)) = 1%nat)
    (products st).

(** The stores the program can leave behind, starting without a file. *)
Inductive reachable : Store -> Prop :=
| reach_created : reachable (create_database None)
| reach_opened st : reachable st -> reachable (create_database (Some st))
| reach_seeded st :
    reachable st -> reachable (db (snd (seed_if_empty (Session st))))
| reach_reported st :
    reachable st -> reachable (db (snd (retrieve_and_display_data (Session st))))
| reach_main st : reachable st -> reachable (db (snd (main (Some st)))).

(** The prices of the seed list, in its order. *)
Definition seed_prices : list float := map (fun t => snd (fst t)) products_data.

(** The mean as line 160 computes it. *)
Definition mean (xs : list float) : result number :=
  py_truediv (py_sum (map PyFloat xs)) (PyInt (Z.of_nat (length xs))).

(** The empty-catalog policy in the words of the specification: a failure
    of class EmptyCatalogError, or statistics whose average is zero. *)
Definition follows_empty_catalog_policy (r : result Stats) : Prop :=
  match r with
  | Raise e => exn_class e = "EmptyCatalogError"
  | Return st => py_eq (avg_price st) (PyInt 0) = true
  end.

(** A new product that holds a category identifier. *)
Definition fresh_product (h : list object) (r : ref) : bool :=
  match h !! r with
  | Some (ProductObj (Product.Obj None _ _ (Some _))) => true
  | _ => false
  end.

(** Lines 72-115: everything [populate_sample_data] does before its
    second commit. *)
Definition stage : M (list ref) :=
  category_map <- seed_categories categories_data ;;
  add_products category_map products_data.

(** The state of a first run just before the second commit. *)
Definition staged : state := Eval vm_compute in snd (stage (Session empty_store)).

(** The five rows the first commit writes. *)
Definition category_rows : list Category.row :=
  Eval vm_compute in categories (db staged).

(** Every reference in the mapping is a [Category] instance. *)
Definition categories_in (m : gmap string ref) (h : list object) : Prop :=
  forall k r, m !! k = Some r -> exists c, h !! r = Some (CategoryObj c).

(** The mapping of line 104 in a first run. *)
Definition seed_category_map : gmap string ref :=
  match fst (seed_categories categories_data (Session empty_store)) with
  | Return m => m
  | Raise _ => ∅
  end.

(** Classifying events. *)
Definition is_commit (e : event) : bool :=
  match e with
  | EvCommit => true
  | _ => false
  end.

Definition constructs_product (e : event) : bool :=
  match e with
  | EvNew _ (ProductObj _) => true
  | _ => false
  end.

(** The category rows the store was given, with the identifiers it assigned. *)
Definition inserted_categories (evs : list event) : list Category.row :=
  flat_map (fun e => match e with EvInsertCategory c => [c] | _ => [] end) evs.

(** A product is constructed with the identifier of one of the rows
    inserted [before]. *)
Definition references_inserted (before : list event) (e : event) : bool :=
  match e with
  | EvNew _ (ProductObj p) =>
      match Product.o_category_id p with
      | Some id =>
          existsb (fun c => Category.category_id c =? id) (inserted_categories before)
      | None => false
      end
  | _ => true
  end.

(** The events up to the first commit, and those after it. *)
Fixpoint until_commit (evs : list event) : list event * list event :=
  match evs with
  | [] => ([], [])
  | EvCommit :: rest => ([], rest)
  | e :: rest => let '(b, a) := until_commit rest in (e :: b, a)
  end.

(** The state of a first run right after its first commit. *)
Definition committed : state :=
  Eval vm_compute in snd (seed_categories categories_data (Session empty_store)).

(** The instance of a category row: it holds the row's identifier. *)
Definition instance_of (c : Category.row) : object :=
  CategoryObj (Category.Obj (Some (Category.category_id c)) (Category.category_name c)).

(** The two phases of a first run. *)
Definition category_phase : list event :=
  Eval vm_compute in fst (until_commit (history staged)).
Definition product_phase : list event :=
  Eval vm_compute in snd (until_commit (history staged)).

(** *** The report as a function of the tables *)

(** The section of one category: its products in table order and their
    total. *)
Definition section_in (st : Store) (c : Category.row)
  : Category.row * list Product.row * number :=
  let ps := List.filter
              (fun p => Product.category_id p =? Category.category_id c)
              (products st) in
  (c, ps, total_value ps).

(** The statistics of lines 157-172 over the tables. *)
Definition stats_in (st : Store) : result Stats :=
  match mean (map Product.price (products st)) with
  | Raise e => Raise e
  | Return avg =>
      match first_by (fun a b => fltb b a) (products st),
            first_by (fun a b => fltb a b) (products st) with
      | Some most, Some least =>
          Return (MkStats (Z.of_nat (length (products st)))
                    (Z.of_nat (length (categories st))) avg most least)
      | _, _ => Raise (AttributeError "product_name")
      end
  end.

Definition report_in (st : Store) : result Report :=
  match stats_in st with
  | Raise e => Raise e
  | Return statistics =>
      Return (MkReport (categories st) (map (section_in st) (categories st))
                statistics (join st))
  end.

(** The queries of a report that returns, in the order they are issued:
    one for the categories, one per category for its products, five for
    the statistics and one for the join. *)
Definition report_queries (st : Store) : list query :=
  QCategoryAll
    :: map (fun c => QProductByCategory (Category.category_id c)) (categories st)
    ++ [ QProductCount; QCategoryCount; QProductPrices;
         QProductPriceDescFirst; QProductPriceAscFirst; QProductJoinCategory ].

(** *** Batches of inserts as functions of the tables *)

(** The [categories] table after the inserts of new categories of the
    given names, one after the other; [None] when one of the names is
    already taken at its turn. *)
Fixpoint insert_categories (names : list string) (cs : list Category.row)
  : option (list Category.row) :=
  match names with
  | [] => Some cs
  | name :: rest =>
      if existsb (String.eqb name) (map Category.category_name cs) then None
      else insert_categories rest
             (cs ++ [Category.Row (next_rowid (map Category.category_id cs)) name])
  end.

(** The [products] table after the inserts of new products of the given
    names, prices and category identifiers. *)
Fixpoint insert_products (items : list (string * float * Z)) (ps : list Product.row)
  : list Product.row :=
  match items with
  | [] => ps
  | (name, price, cid) :: rest =>
      insert_products rest
        (ps ++ [Product.Row (next_rowid (map Product.product_id ps)) name price cid])
  end.

(** The name, price and category identifier a pending product holds. *)
Definition product_item (o : object) : option (string * float * Z) :=
  match o with
  | ProductObj (Product.Obj None name price (Some cid)) => Some (name, price, cid)
  | _ => None
  end.

(** What the seventeen pending products of a first run hold. *)
Definition staged_items : list (string * float * Z) :=
  Eval vm_compute in
    omap (fun r => heap staged !! r ≫= product_item) (pending staged).

(** A row has the name and price of a seed item and the identifier of a
    row of [cs] that bears the item's category name. *)
Definition row_of_item (cs : list Category.row) (row : Product.row)
    (item : string * float * string) : Prop :=
  Product.product_name row = fst (fst item) /\
  Product.price row = snd (fst item) /\
  exists c, In c cs /\
            Category.category_name c = snd item /\
            Category.category_id c = Product.category_id row.

(** The [UNIQUE] failure SQLite reports for [categories.category_name]. *)
Definition unique_name_failure : exn :=
  IntegrityError "UNIQUE constraint failed: categories.category_name".

(** The state of a first run before its first commit: the five new
    categories are pending. *)
Definition added : state :=
  Eval vm_compute in snd (add_categories categories_data (Session empty_store)).

(** *** The states of a session *)





(** The INSERT of a flush. *)
Definition is_insert (e : event) : bool :=
  match e with
  | EvInsertCategory _ | EvInsertProduct _ => true
  | _ => false
  end.

(** The failure the specification names for a category name that is not
    in the mapping: an exception of class SeedIntegrityError. *)
Definition fails_with_SeedIntegrityError {A} (r : result A) : Prop :=
  match r with
  | Raise e => exn_class e = "SeedIntegrityError"
  | Return _ => False
  end.

(** ** Invariants of computations *)

Section Preserves.
Variable I : state -> Prop.

Lemma preserves_ret {A} (a : A) : preserves I (ret a).
Proof. intros s Hs. exact Hs. Qed.

Lemma preserves_raise {A} (e : exn) : preserves I (@raise A e).
Proof. intros s Hs. exact Hs. Qed.

Lemma preserves_lift {A} (r : result A) : preserves I (lift r).
Proof. intros s Hs. exact Hs. Qed.

Lemma preserves_bind {A B} (c : M A) (k : A -> M B) :
  preserves I c -> (forall a, preserves I (k a)) -> preserves I (bind c k).
Proof.
  intros Hc Hk s Hs. unfold bind. specialize (Hc s Hs).
  destruct (c s) as [[a | e] s']; simpl in *; [ now apply Hk | exact Hc ].
Qed.

Lemma preserves_for_each {A B} (xs : list A) (body : A -> M B) :
  (forall x, preserves I (body x)) -> preserves I (for_each xs body).
Proof.
  intros Hbody. induction xs as [| x xs IH]; simpl.
  - apply preserves_ret.
  - apply preserves_bind; [ apply Hbody | intros b ].
    apply preserves_bind; [ exact IH | intros bs; apply preserves_ret ].
Qed.

Lemma preserves_flush_all (rs : list ref) :
  (forall r, preserves I (flush_one r)) -> preserves I (flush_all rs).
Proof.
  intros H1. induction rs as [| r rs IH]; simpl.
  - apply preserves_ret.
  - apply preserves_bind; [ apply H1 | intros _; exact IH ].
Qed.
End Preserves.

Lemma run_bind {A B} (c : M A) (k : A -> M B) (s : state) :
  bind c k s = match c s with
               | (Return a, s') => k a s'
               | (Raise e, s') => (Raise e, s')
               end.
Proof. reflexivity. Qed.

Lemma bind_assoc {A B C} (c : M A) (k : A -> M B) (h : B -> M C) (s : state) :
  bind (bind c k) h s = bind c (fun a => bind (k a) h) s.
Proof. unfold bind. destruct (c s) as [[a | e] s']; reflexivity. Qed.

(** Case analysis on the instance [flush_one] finds behind a reference. *)
Ltac flush_one_cases s r :=
  unfold flush_one;
  destruct (heap s !! r) as [[[[?|] ?] | [[?|] ? ? [?|]]] |];
  simpl;
  try match goal with
      | |- context [existsb ?f ?l] => destruct (existsb f l); simpl
      end.

(** *** The committed file is written by [commit] alone *)

Lemma flush_one_db d r : preserves (db_is d) (flush_one r).
Proof. intros s Hs. unfold db_is in *. flush_one_cases s r; exact Hs. Qed.

Lemma flush_db d : preserves (db_is d) flush.
Proof.
  intros s Hs. unfold flush.
  pose proof (preserves_flush_all (db_is d) (pending s) (flush_one_db d) s Hs) as H.
  destruct (flush_all (pending s) s) as [[[] | e] s']; simpl in *; exact H.
Qed.

Lemma select_db {A} d q (read : Store -> A) : preserves (db_is d) (select q read).
Proof.
  unfold select. apply preserves_bind; [ apply flush_db | intros _ ].
  apply preserves_bind; intros; intros s Hs; exact Hs.
Qed.

(** *** What the report keeps

    Every statement of the report is a query or pure arithmetic, so it
    keeps whatever the queries keep. *)

Section ReportFrame.
Variable I : state -> Prop.
Hypothesis select_I : forall A q (read : Store -> A), preserves I (select q read).

Lemma some_product_preserves x : preserves I (some_product x).
Proof. destruct x; intros s Hs; exact Hs. Qed.

Lemma overall_statistics_preserves : preserves I overall_statistics.
Proof.
  unfold overall_statistics, query_Product_count, query_Category_count,
    query_Product_prices, query_Product_price_desc_first,
    query_Product_price_asc_first.
  repeat (first [ apply select_I | apply some_product_preserves
                | apply preserves_ret | apply preserves_lift
                | apply preserves_bind; [ | intros ? ] ]).
Qed.

Lemma section_of_preserves c : preserves I (section_of c).
Proof.
  unfold section_of, query_Product_filter_by.
  apply preserves_bind; [ apply select_I | intros ?; apply preserves_ret ].
Qed.

Lemma retrieve_and_display_data_preserves : preserves I retrieve_and_display_data.
Proof.
  unfold retrieve_and_display_data, query_Category_all, query_Product_join_Category.
  apply preserves_bind; [ apply select_I | intros cats ].
  apply preserves_bind;
    [ apply preserves_for_each, section_of_preserves | intros secs ].
  apply preserves_bind; [ apply overall_statistics_preserves | intros st ].
  apply preserves_bind; [ apply select_I | intros ?; apply preserves_ret ].
Qed.
End ReportFrame.

(** *** A session with nothing pending

    With nothing to flush a query changes nothing but the log. *)

Lemma flush_settled (s : state) : pending s = [] -> flush s = (Return tt, s).
Proof. destruct s as [d t h p tr]. simpl. intros ->. reflexivity. Qed.

Lemma select_settled {A} (q : query) (read : Store -> A) (s : state) :
  pending s = [] ->
  select q read s =
    (Return (read (txn s)),
     MkState (db s) (txn s) (heap s) (pending s) (EvQuery q :: trace s)).
Proof.
  intros Hp. unfold select. rewrite run_bind, (flush_settled s Hp). reflexivity.
Qed.

Lemma select_settled_at {A} d t h tr q (read : Store -> A) :
  preserves (settled_at d t h tr) (select q read).
Proof.
  intros s (Hd & Ht & Hh & Hp & qs & Htr). rewrite (select_settled q read s Hp).
  simpl. repeat split; try assumption.
  exists (q :: qs). simpl. now rewrite Htr.
Qed.

(** ** The seeded store *)


Example seeded_counts :
  length (categories (db seeded)) = 5%nat /\ length (products (db seeded)) = 17%nat.
Proof. vm_compute. split; reflexivity. Qed.

(** A first run of [main] returns its report, and a second run on the file
    the first one left returns the same report. *)
Example main_twice :
  (exists report, fst (main None) = Return report) /\
  fst (main (Some (db (snd (main None))))) = fst (main None).
Proof. split; [ eexists | ]; vm_compute; reflexivity. Qed.

Example literal_699_99 : decimal 69999 = S754_finite false 6157177154615378 (-43).
Proof. vm_compute. reflexivity. Qed.

(** The extreme prices of the seed are met once each, so the rule for
    equal prices plays no part on the seeded store. *)
Lemma seed_extremes_unique :
  length (List.filter (fun p => SFeqb p (decimal 129999)) seed_prices) = 1%nat /\
  length (List.filter (fun p => SFeqb p (decimal 1499)) seed_prices) = 1%nat /\
  forallb (fun p => SFleb p (decimal 129999) && SFleb (decimal 1499) p) seed_prices = true.
Proof. vm_compute. repeat split; reflexivity. Qed.

(** C1, as the specification states it, fails: the mean of the seed
    prices is not approximately 201.74, whether that is read as the two
    decimals the report shows or as any value within a unit of it. *)
Lemma C1_average_price_is_not_201_74 :
  ~ (exists st,
        fst (overall_statistics seeded) = Return st /\
        total_products st = 17 /\
        total_categories st = 5 /\
        Return (avg_price st) = mean seed_prices /\
        (cents_2f (to_float (avg_price st)) = 20174 \/
         (Qabs (Q_of_float (to_float (avg_price st)) - (20174 # 100)) <= 1)%Q)).
Proof.
  intros (st & Hst & _ & _ & _ & Hc).
  vm_compute in Hst. injection Hst as <-.
  destruct Hc as [Hc | Hc]; vm_compute in Hc.
  - discriminate Hc.
  - now apply Hc.
Qed.

(** C1 (amended): on the store seeded from empty, the statistics count 17
    products and 5 categories; the average is the mean of the 17 literal
    prices as binary64 arithmetic computes it, within 1e-9 of the exact
    3729.83 / 17 and shown as 219.40; the most expensive product is
    "Laptop" at 1299.99 and the least expensive "Science Fiction Novel" at
    14.99. *)
Theorem C1_overall_statistics_of_seed :
  exists st,
    fst (overall_statistics seeded) = Return st /\
    total_products st = 17 /\
    total_categories st = 5 /\
    Return (avg_price st) = mean seed_prices /\
    (Qabs (Q_of_float (to_float (avg_price st)) - (372983 # 1700)) < 1 # 1000000000)%Q /\
    cents_2f (to_float (avg_price st)) = 21940 /\
    Product.product_name (most_expensive st) = "Laptop" /\
    Product.price (most_expensive st) = decimal 129999 /\
    Product.product_name (least_expensive st) = "Science Fiction Novel" /\
    Product.price (least_expensive st) = decimal 1499.
Proof.
  eexists. split; [ vm_compute; reflexivity | ].
  repeat split; vm_compute; reflexivity.
Qed.

(** ** The report on a store without products *)

(** C3, as the specification states it, fails on the empty store: the
    statistics neither raise an EmptyCatalogError nor return a zero
    average. *)
Lemma C3_no_empty_catalog_policy :
  ~ follows_empty_catalog_policy (fst (overall_statistics (Session empty_store))).
Proof. vm_compute. discriminate. Qed.

Lemma overall_statistics_zero_products (s : state) :
  pending s = [] ->
  products (txn s) = [] ->
  overall_statistics s =
    (Raise ZeroDivisionError,
     MkState (db s) (txn s) (heap s) []
       (EvQuery QProductPrices :: EvQuery QCategoryCount :: EvQuery QProductCount
          :: trace s)).
Proof.
  destruct s as [d [cs ps] h p tr]. simpl. intros -> ->. reflexivity.
Qed.

(** The loop over the categories returns when nothing is pending. *)
Lemma sections_settled (cats : list Category.row) :
  forall s,
    pending s = [] ->
    exists secs s',
      for_each cats section_of s = (Return secs, s') /\
      pending s' = [] /\ txn s' = txn s.
Proof.
  induction cats as [| c cats IH]; intros s Hp.
  - exists [], s. repeat split. exact Hp.
  - cbn [for_each]. rewrite run_bind. unfold section_of at 1.
    unfold query_Product_filter_by. rewrite run_bind, select_settled by exact Hp.
    cbn [ret]. rewrite run_bind.
    match goal with |- context [for_each cats section_of ?s1] =>
      destruct (IH s1) as (secs & s' & -> & Hp' & Ht'); [ exact Hp | ]
    end.
    eexists _, s'. split; [ reflexivity | ]. split; [ exact Hp' | exact Ht' ].
Qed.

(** So the whole report fails the same way on a store without products. *)
Lemma report_zero_products (st : Store) :
  products st = [] ->
  fst (retrieve_and_display_data (Session st)) = Raise ZeroDivisionError.
Proof.
  intros Hps. unfold retrieve_and_display_data, query_Category_all.
  rewrite run_bind, select_settled by reflexivity. rewrite run_bind.
  match goal with |- context [for_each ?cats section_of ?s1] =>
    destruct (sections_settled cats s1) as (secs & s' & -> & Hp' & Ht');
      [ reflexivity | ]
  end.
  rewrite run_bind, overall_statistics_zero_products; [ reflexivity | exact Hp' | ].
  rewrite Ht'. exact Hps.
Qed.

(** C3 (amended): against a store with zero products the statistics fail
    with Python's ZeroDivisionError, raised by the division of line 160
    itself (the int sum 0 over the length 0); the two ORDER BY queries for
    the most and least expensive product are never issued, and nothing but
    the log of queries changes. *)
Theorem C3_zero_products_raise_ZeroDivisionError (s : state) :
  pending s = [] ->
  products (txn s) = [] ->
  overall_statistics s =
    (Raise ZeroDivisionError,
     MkState (db s) (txn s) (heap s) []
       (EvQuery QProductPrices :: EvQuery QCategoryCount :: EvQuery QProductCount
          :: trace s)).
Proof. exact (overall_statistics_zero_products s). Qed.

Lemma C3_zero_products_witness :
  pending (Session empty_store) = [] /\
  products (txn (Session empty_store)) = [] /\
  fst (overall_statistics (Session empty_store)) = Raise ZeroDivisionError.
Proof.
  split; [ reflexivity | split; [ reflexivity | ] ].
  rewrite (C3_zero_products_raise_ZeroDivisionError (Session empty_store));
    reflexivity.
Defined.

(** ** The report writes nothing *)

(** C10: the report leaves the committed tables exactly as they were, from
    every state; when nothing is pending in the session it changes neither
    the rows the transaction sees nor the instances, and all it logs are
    queries. *)
Theorem C10_report_writes_nothing (s : state) :
  let s' := snd (retrieve_and_display_data s) in
  db s' = db s /\
  (pending s = [] ->
   txn s' = txn s /\ heap s' = heap s /\ pending s' = [] /\
   exists qs, trace s' = map EvQuery qs ++ trace s).
Proof.
  simpl. split.
  - apply (retrieve_and_display_data_preserves (db_is (db s)) (fun A => select_db (db s))).
    reflexivity.
  - intros Hp.
    assert (settled_at (db s) (txn s) (heap s) (trace s)
              (snd (retrieve_and_display_data s))) as (_ & Ht & Hh & Hp' & Hq).
    { apply (retrieve_and_display_data_preserves _
               (fun A => select_settled_at (db s) (txn s) (heap s) (trace s))).
      repeat split; try assumption. now exists []. }
    auto.
Qed.

(** ** Category totals *)

Lemma filter_none {A} (f : A -> bool) (l : list A) :
  Forall (fun x => f x = false) l -> List.filter f l = [].
Proof.
  induction 1 as [| x l Hx _ IH]; simpl; [ reflexivity | ].
  now rewrite Hx.
Qed.

(** C8: on the seeded store the section of "Electronics" holds its four
    products and the total 2749.96, which is the binary64 sum of the four
    literals; the section of a category without products has the total
    [0], the int the accumulator starts from, equal to [0.0]. *)
Theorem C8_category_total_value :
  (exists r electronics ps,
      fst (retrieve_and_display_data seeded) = Return r /\
      In (electronics, ps, PyFloat (decimal 274996)) (by_category r) /\
      Category.category_name electronics = "Electronics" /\
      ps = List.filter
             (fun p => Product.category_id p =? Category.category_id electronics)
             (products (db seeded)) /\
      map Product.price ps =
        [decimal 69999; decimal 129999; decimal 14999; decimal 59999] /\
      fadd (fadd (fadd (decimal 69999) (decimal 129999)) (decimal 14999))
        (decimal 59999) = decimal 274996) /\
  (forall (st : Store) (c : Category.row),
      Forall (fun p => Product.category_id p <> Category.category_id c) (products st) ->
      fst (section_of c (Session st)) = Return (c, [], PyInt 0)) /\
  py_eq (PyInt 0) (PyFloat (S754_zero false)) = true.
Proof.
  split; [ | split ].
  - eexists _, (Category.Row 1 "Electronics"), _.
    split; [ vm_compute; reflexivity | ].
    split; [ left; vm_compute; reflexivity | ].
    repeat split; vm_compute; reflexivity.
  - intros st c Hnone. unfold section_of, query_Product_filter_by.
    rewrite run_bind, select_settled by reflexivity. simpl.
    rewrite filter_none; [ reflexivity | ].
    eapply Forall_impl; [ exact Hnone | ].
    intros p Hp. simpl in Hp. now apply Z.eqb_neq.
  - reflexivity.
Qed.

(** ** The join *)

Lemma join_spec (st : Store) (p : Product.row) (c : Category.row) :
  In (p, c) (join st) <->
  In p (products st) /\ In c (categories st) /\
  Category.category_id c = Product.category_id p.
Proof.
  unfold join. rewrite in_flat_map. split.
  - intros (p' & Hp' & Hin). apply in_map_iff in Hin as (c' & Heq & Hc').
    injection Heq as <- <-. apply filter_In in Hc' as [Hc' Hid].
    apply Z.eqb_eq in Hid. auto.
  - intros (Hp & Hc & Hid). exists p. split; [ exact Hp | ].
    apply in_map_iff. exists c. split; [ reflexivity | ].
    apply filter_In. split; [ exact Hc | now apply Z.eqb_eq ].
Qed.

(** C9: on the seeded store the join returns 17 pairs, one per product
    and in the products' order, each with the category whose identifier is
    the product's [category_id], "Smartphone" with "Electronics" among
    them; on any store the pairs are exactly the matching ones, so a
    product without a matching category is in no pair. *)
Theorem C9_joined_listing :
  (exists r,
      fst (retrieve_and_display_data seeded) = Return r /\
      length (results r) = 17%nat /\
      map fst (results r) = products (db seeded) /\
      Forall (fun pc => Category.category_id (snd pc) = Product.category_id (fst pc))
        (results r) /\
      exists p c,
        In (p, c) (results r) /\
        Product.product_name p = "Smartphone" /\
        Category.category_name c = "Electronics") /\
  (forall st p c,
      In (p, c) (join st) <->
      In p (products st) /\ In c (categories st) /\
      Category.category_id c = Product.category_id p) /\
  (forall st p,
      (forall c, In c (categories st) ->
                 Category.category_id c <> Product.category_id p) ->
      forall c, ~ In (p, c) (join st)).
Proof.
  split; [ | split ].
  - eexists. split; [ vm_compute; reflexivity | ].
    split; [ reflexivity | ].
    split; [ vm_compute; reflexivity | ].
    split; [ vm_compute; repeat constructor | ].
    eexists _, _. split; [ left; reflexivity | split; reflexivity ].
  - exact join_spec.
  - intros st p Hno c Hin. apply join_spec in Hin as (_ & Hc & Hid).
    exact (Hno c Hc Hid).
Qed.

(** ** Flushing new products

    A batch of distinct new products, each holding a category identifier,
    is inserted without failure: one row per instance, appended to the
    table, and nothing else is touched. *)

Lemma flush_one_fresh (s : state) (r : ref) :
  fresh_product (heap s) r = true ->
  exists s' row,
    flush_one r s = (Return tt, s') /\
    db s' = db s /\
    txn s' = MkStore (categories (txn s)) (products (txn s) ++ [row]) /\
    trace s' = EvInsertProduct row :: trace s /\
    pending s' = pending s /\
    forall r', r' <> r -> heap s' !! r' = heap s !! r'.
Proof.
  unfold fresh_product, flush_one.
  destruct (heap s !! r) as [[c | [[pid |] name price [cid |]]] |];
    try discriminate.
  intros _. eexists _, _. split; [ reflexivity | ]. simpl.
  repeat split. intros r' Hne. now apply list_lookup_insert_ne.
Qed.

Lemma fresh_product_ext (h h' : list object) (r : ref) :
  h' !! r = h !! r -> fresh_product h' r = fresh_product h r.
Proof. unfold fresh_product. now intros ->. Qed.

Lemma flush_all_fresh (rs : list ref) :
  forall s,
    NoDup rs ->
    forallb (fresh_product (heap s)) rs = true ->
    exists s' rows,
      flush_all rs s = (Return tt, s') /\
      db s' = db s /\
      txn s' = MkStore (categories (txn s)) (products (txn s) ++ rows) /\
      trace s' = rev (map EvInsertProduct rows) ++ trace s /\
      pending s' = pending s /\
      length rows = length rs.
Proof.
  induction rs as [| r rs IH]; intros s Hnd Hfresh.
  - exists s, []. simpl. rewrite app_nil_r. destruct s as [d [cs ps] h p tr].
    repeat split.
  - simpl in Hfresh. apply andb_prop in Hfresh as [Hr Hrs].
    apply NoDup_cons in Hnd as [Hnotin Hnd].
    destruct (flush_one_fresh s r Hr) as (s1 & row & Hrun & Hdb & Htxn & Htr & Hp & Hheap).
    destruct (IH s1 Hnd) as (s' & rows & Hrun' & Hdb' & Htxn' & Htr' & Hp' & Hlen).
    { apply forallb_forall. intros r' Hin.
      rewrite (fresh_product_ext (heap s) (heap s1) r').
      - revert r' Hin. now apply forallb_forall.
      - apply Hheap. intros ->. apply Hnotin. now apply list_elem_of_In. }
    exists s', (row :: rows). simpl. rewrite run_bind, Hrun.
    split; [ exact Hrun' | ].
    rewrite Hdb', Hdb, Htxn', Htxn, Htr', Htr, Hp', Hp, Hlen. simpl.
    rewrite <- !app_assoc. repeat split.
Qed.

Lemma commit_fresh (d : Store) (cs : list Category.row) (ps : list Product.row)
    (h : list object) (p : list ref) (tr : list event) :
  NoDup p ->
  forallb (fresh_product h) p = true ->
  exists rows h',
    length rows = length p /\
    commit (MkState d (MkStore cs ps) h p tr) =
      (Return tt,
       MkState (MkStore cs (ps ++ rows)) (MkStore cs (ps ++ rows)) h' []
         (EvCommit :: rev (map EvInsertProduct rows) ++ tr)).
Proof.
  intros Hnd Hfresh.
  destruct (flush_all_fresh p (MkState d (MkStore cs ps) h p tr) Hnd Hfresh)
    as (s' & rows & Hrun & Hdb & Htxn & Htr & Hp & Hlen).
  exists rows, (heap s'). split; [ exact Hlen | ].
  unfold commit. rewrite run_bind. unfold flush.
  cbn [pending]. rewrite Hrun. simpl in *. now rewrite Htxn, Htr.
Qed.

(** ** Seeding a store that has no category *)

Lemma populate_stage_commit (s : state) :
  populate_sample_data s = bind stage (fun _ => commit) s.
Proof. unfold populate_sample_data, seed, stage. now rewrite bind_assoc. Qed.

Example staged_is : staged = snd (stage (Session empty_store)).
Proof. vm_compute. reflexivity. Qed.

Example category_rows_are :
  category_rows =
    [ Category.Row 1 "Electronics"; Category.Row 2 "Clothing"; Category.Row 3 "Books";
      Category.Row 4 "Home & Garden"; Category.Row 5 "Sports & Outdoors" ].
Proof. vm_compute. reflexivity. Qed.

(** Whatever products the store holds, staging goes the same way. *)
Lemma stage_run (ps : list Product.row) (tr : list event) :
  stage (MkState (MkStore [] ps) (MkStore [] ps) [] [] tr) =
    (Return (pending staged),
     MkState (MkStore category_rows ps) (MkStore category_rows ps)
       (heap staged) (pending staged) (trace staged ++ tr)).
Proof. vm_compute. reflexivity. Qed.

Lemma staged_ready :
  NoDup (pending staged) /\
  forallb (fresh_product (heap staged)) (pending staged) = true /\
  length (pending staged) = 17%nat.
Proof.
  split; [ | split ].
  - apply (bool_decide_unpack _). vm_compute. reflexivity.
  - vm_compute. reflexivity.
  - vm_compute. reflexivity.
Qed.

(** [populate_sample_data] on a store without categories: it returns, the
    file then holds the five categories and seventeen more products. *)
Lemma populate_run (ps : list Product.row) (tr : list event) :
  exists rows h,
    length rows = 17%nat /\
    populate_sample_data (MkState (MkStore [] ps) (MkStore [] ps) [] [] tr) =
      (Return tt,
       MkState (MkStore category_rows (ps ++ rows)) (MkStore category_rows (ps ++ rows))
         h [] (EvCommit :: rev (map EvInsertProduct rows) ++ trace staged ++ tr)).
Proof.
  destruct staged_ready as (Hnd & Hfresh & H17).
  destruct (commit_fresh (MkStore category_rows ps) category_rows ps (heap staged)
              (pending staged) (trace staged ++ tr) Hnd Hfresh)
    as (rows & h & Hlen & Hrun).
  exists rows, h. split; [ now rewrite Hlen | ].
  rewrite populate_stage_commit, run_bind, stage_run. exact Hrun.
Qed.

(** With a category in the table the seeding step is one COUNT query. *)
Lemma seed_if_empty_populated (s : state) :
  pending s = [] ->
  categories (txn s) <> [] ->
  seed_if_empty s =
    (Return tt,
     MkState (db s) (txn s) (heap s) [] (EvQuery QCategoryCount :: trace s)).
Proof.
  intros Hp Hne. unfold seed_if_empty, query_Category_count.
  rewrite run_bind, select_settled by exact Hp.
  destruct (categories (txn s)) as [| c cs] eqn:E; [ contradiction | ].
  rewrite Hp. reflexivity.
Qed.

Lemma seed_if_empty_vacant (ps : list Product.row) :
  exists rows h,
    length rows = 17%nat /\
    seed_if_empty (Session (MkStore [] ps)) =
      (Return tt,
       MkState (MkStore category_rows (ps ++ rows)) (MkStore category_rows (ps ++ rows))
         h [] (EvCommit :: rev (map EvInsertProduct rows) ++ trace staged
                 ++ [EvQuery QCategoryCount])).
Proof.
  destruct (populate_run ps [EvQuery QCategoryCount]) as (rows & h & Hlen & Hrun).
  exists rows, h. split; [ exact Hlen | ].
  unfold seed_if_empty, query_Category_count.
  rewrite run_bind, select_settled by reflexivity.
  exact Hrun.
Qed.

Lemma category_rows_not_nil : category_rows <> [].
Proof. rewrite category_rows_are. discriminate. Qed.

(** ** Idempotence of the seeding step *)

(** C2: from every store the seeding step returns; run once more, in the
    same session or in a new run on the file it left, it returns again and
    leaves the file as the first run left it, so both row counts are
    those of a single run. With a category in the table it writes nothing;
    with none it writes the five categories and seventeen products. *)
Theorem C2_seed_if_empty_idempotent (st : Store) :
  exists s1 s2 s3,
    seed_if_empty (Session st) = (Return tt, s1) /\
    seed_if_empty s1 = (Return tt, s2) /\
    seed_if_empty (Session (db s1)) = (Return tt, s3) /\
    db s2 = db s1 /\
    db s3 = db s1 /\
    length (categories (db s2)) = length (categories (db s1)) /\
    length (products (db s2)) = length (products (db s1)) /\
    (categories st <> [] -> db s1 = st) /\
    (categories st = [] ->
     length (categories (db s1)) = 5%nat /\
     length (products (db s1)) = (length (products st) + 17)%nat).
Proof.
  destruct st as [[| c cs] ps].
  - destruct (seed_if_empty_vacant ps) as (rows & h & Hlen & Hrun).
    eexists _, _, _. split; [ exact Hrun | ].
    split; [ apply seed_if_empty_populated;
             [ reflexivity | exact category_rows_not_nil ] | ].
    split; [ apply seed_if_empty_populated;
             [ reflexivity | exact category_rows_not_nil ] | ].
    cbn [db txn categories products].
    do 4 (split; [ reflexivity | ]). split.
    + intros Hne. now contradiction Hne.
    + intros _. split.
      * now rewrite category_rows_are.
      * now rewrite length_app, Hlen.
  - eexists _, _, _.
    split; [ apply seed_if_empty_populated; [ reflexivity | discriminate ] | ].
    split; [ apply seed_if_empty_populated; [ reflexivity | discriminate ] | ].
    split; [ apply seed_if_empty_populated; [ reflexivity | discriminate ] | ].
    cbn [db txn categories products Session].
    do 4 (split; [ reflexivity | ]). split; [ reflexivity | ].
    intros Hc. discriminate Hc.
Qed.

(** ** Rowid order

    The tables stay in ascending rowid order: the only writes are the
    inserts of a flush, each at the end of its table with the rowid
    [next_rowid] gives, which is above every rowid in use. *)

Lemma fold_left_max_ge (l : list Z) :
  forall a, a <= fold_left Z.max l a /\ Forall (fun x => x <= fold_left Z.max l a) l.
Proof.
  induction l as [| y l IH]; intros a; simpl.
  - split; [ lia | constructor ].
  - destruct (IH (Z.max a y)) as [Ha Hl]. split; [ lia | ].
    constructor; [ lia | exact Hl ].
Qed.

Lemma next_rowid_above (ids : list Z) : Forall (fun x => x < next_rowid ids) ids.
Proof.
  destruct ids as [| i rest]; [ constructor | ]. unfold next_rowid.
  destruct (fold_left_max_ge rest i) as [Hi Hrest].
  constructor; [ lia | ].
  eapply Forall_impl; [ exact Hrest | ]. intros x Hx. simpl in Hx. lia.
Qed.

Lemma ascending_next (ids : list Z) :
  ascending ids -> ascending (ids ++ [next_rowid ids]).
Proof.
  intros Hasc. apply StronglySorted_app_2.
  - intros x1 x2 H1 H2. apply list_elem_of_singleton in H2 as ->.
    pose proof (next_rowid_above ids) as Habove.
    rewrite Forall_forall in Habove. now apply Habove.
  - exact Hasc.
  - repeat constructor.
Qed.

Lemma flush_one_ordered r : preserves ordered (flush_one r).
Proof.
  intros s [Hdb [Hc Hp]]. unfold ordered, rowid_order. flush_one_cases s r;
    try (split; [ exact Hdb | split; assumption ]).
  - split; [ exact Hdb | split; [ | exact Hp ] ].
    rewrite map_app. simpl. now apply ascending_next.
  - split; [ exact Hdb | split; [ exact Hc | ] ].
    rewrite map_app. simpl. now apply ascending_next.
Qed.

Lemma flush_ordered : preserves ordered flush.
Proof.
  intros s Hs. unfold flush.
  pose proof (preserves_flush_all ordered (pending s) flush_one_ordered s Hs) as H.
  destruct (flush_all (pending s) s) as [[[] | e] s']; simpl in *.
  - exact H.
  - destruct H as [Hdb _]. split; exact Hdb.
Qed.

Lemma commit_ordered : preserves ordered commit.
Proof.
  unfold commit. apply preserves_bind; [ exact flush_ordered | intros _ ].
  intros s [_ Htxn]. split; exact Htxn.
Qed.

Lemma select_ordered {A} q (read : Store -> A) : preserves ordered (select q read).
Proof.
  unfold select. apply preserves_bind; [ exact flush_ordered | intros _ ].
  apply preserves_bind; intros; intros s Hs; exact Hs.
Qed.

Lemma new_ordered o : preserves ordered (new o).
Proof. intros s Hs. exact Hs. Qed.

Lemma session_add_ordered r : preserves ordered (session_add r).
Proof. intros s Hs. exact Hs. Qed.

Lemma get_category_ordered r : preserves ordered (get_category r).
Proof.
  intros s Hs. unfold get_category.
  destruct (heap s !! r) as [[c | p] |]; exact Hs.
Qed.

Lemma dict_get_ordered m k : preserves ordered (dict_get m k).
Proof. unfold dict_get. destruct (m !! k); intros s Hs; exact Hs. Qed.

Lemma build_category_map_ordered cats : forall m, preserves ordered (build_category_map cats m).
Proof.
  induction cats as [| c cats IH]; intros m; simpl.
  - apply preserves_ret.
  - apply preserves_bind; [ apply get_category_ordered | intros o; apply IH ].
Qed.

Create HintDb frame discriminated.
#[local] Hint Resolve preserves_ret preserves_raise preserves_lift
  commit_ordered new_ordered session_add_ordered get_category_ordered
  dict_get_ordered build_category_map_ordered : frame.

Lemma seed_ordered names data : preserves ordered (seed names data).
Proof.
  unfold seed, seed_categories, add_categories, add_products, add_product.
  repeat (first [ solve [ auto with frame ]
                | apply preserves_for_each; intros ?
                | match goal with |- preserves _ (let '(_, _) := ?x in _) =>
                    destruct x as [[? ?] ?] end
                | apply preserves_bind; [ | intros ? ] ]).
Qed.

Lemma seed_if_empty_ordered : preserves ordered seed_if_empty.
Proof.
  unfold seed_if_empty, query_Category_count.
  apply preserves_bind; [ apply select_ordered | intros n ].
  destruct (n =? 0); [ apply seed_ordered | apply preserves_ret ].
Qed.

Lemma seed_if_empty_returns (st : Store) :
  exists s1,
    seed_if_empty (Session st) = (Return tt, s1) /\
    pending s1 = [] /\
    txn s1 = db s1.
Proof.
  destruct st as [[| c cs] ps].
  - destruct (seed_if_empty_vacant ps) as (rows & h & _ & Hrun).
    eexists. split; [ exact Hrun | split; reflexivity ].
  - eexists. split; [ apply seed_if_empty_populated; [ reflexivity | discriminate ] | ].
    split; reflexivity.
Qed.

Example seeded_rowid_order : rowid_order (db seeded).
Proof. vm_compute. split; repeat constructor. Qed.

(** ** Referential integrity *)

Lemma integrity_seeded : referential_integrity (db seeded).
Proof. vm_compute. repeat constructor. Qed.

Lemma integrity_without_categories (ps : list Product.row) :
  referential_integrity (MkStore [] ps) -> ps = [].
Proof.
  destruct ps as [| p ps]; [ reflexivity | ].
  intros H. apply Forall_cons in H as [H _]. discriminate H.
Qed.

Lemma seed_if_empty_integrity (st : Store) :
  referential_integrity st ->
  referential_integrity (db (snd (seed_if_empty (Session st)))).
Proof.
  destruct st as [[| c cs] ps]; intros H.
  - apply integrity_without_categories in H as ->.
    vm_compute. repeat constructor.
  - rewrite seed_if_empty_populated; [ exact H | reflexivity | discriminate ].
Qed.

Lemma session_close_db d : preserves (db_is d) session_close.
Proof. intros s Hs. exact Hs. Qed.

Lemma main_db (file : option Store) :
  db (snd (main file)) = db (snd (seed_if_empty (Session (create_database file)))).
Proof.
  unfold main. rewrite run_bind.
  destruct (seed_if_empty (Session (create_database file))) as [[[] | e] s1];
    [ | reflexivity ].
  cbn [snd].
  apply (preserves_bind (db_is (db s1))); [ | | reflexivity ].
  - apply retrieve_and_display_data_preserves. intros A. apply select_db.
  - intros r. apply preserves_bind; [ apply session_close_db | intros _ ].
    apply preserves_ret.
Qed.

Lemma reachable_integrity (st : Store) : reachable st -> referential_integrity st.
Proof.
  induction 1 as [| st _ IH | st _ IH | st _ IH | st _ IH].
  - constructor.
  - exact IH.
  - now apply seed_if_empty_integrity.
  - rewrite (retrieve_and_display_data_preserves (db_is st)
               (fun A => select_db st) (Session st) eq_refl).
    exact IH.
  - rewrite main_db. now apply seed_if_empty_integrity.
Qed.

(** C4: in every store the program can leave behind (created, opened
    again, seeded, reported on, or after a whole run of [main]) each
    product row has exactly one category row whose [category_id] is the
    product's. *)
Theorem C4_reachable_referential_integrity (st : Store) (p : Product.row) :
  reachable st ->
  In p (products st) ->
  length (List.filter
            (fun c => Category.category_id c =? Product.category_id p)
            (categories st)) = 1%nat.
Proof.
  intros Hreach Hin. apply reachable_integrity in Hreach.
  unfold referential_integrity in Hreach. rewrite Forall_forall in Hreach.
  apply Hreach. now apply list_elem_of_In.
Qed.

Lemma C4_reachable_witness :
  let laptop := Product.Row 2 "Laptop" (decimal 129999) 1 in
  reachable (db seeded) /\
  In laptop (products (db seeded)) /\
  length (List.filter
            (fun c => Category.category_id c =? Product.category_id laptop)
            (categories (db seeded))) = 1%nat.
Proof.
  cbv zeta.
  assert (reachable (db seeded)) as Hreach
    by exact (reach_seeded _ reach_created).
  assert (In (Product.Row 2 "Laptop" (decimal 129999) 1) (products (db seeded)))
    as Hin by (vm_compute; right; left; reflexivity).
  split; [ exact Hreach | split; [ exact Hin | ] ].
  exact (C4_reachable_referential_integrity (db seeded) _ Hreach Hin).
Defined.

(** ** Resolving category names *)

Lemma categories_in_grow m h o : categories_in m h -> categories_in m (h ++ [o]).
Proof.
  intros Hm k r Hk. destruct (Hm k r Hk) as [c Hc]. exists c.
  rewrite lookup_app_l; [ exact Hc | ]. now apply lookup_lt_Some in Hc.
Qed.

(** One turn of the loop: a KeyError when the name is not a key of the
    mapping, a new pending product otherwise. *)
Lemma add_product_run m name price k s :
  categories_in m (heap s) ->
  match m !! k with
  | Some r =>
      exists s',
        add_product m (name, price, k) s = (Return (length (heap s)), s') /\
        categories_in m (heap s')
  | None => add_product m (name, price, k) s = (Raise (KeyError k), s)
  end.
Proof.
  intros Hm. unfold add_product, dict_get.
  destruct (m !! k) as [r |] eqn:Hk; [ | reflexivity ].
  destruct (Hm k r Hk) as [c Hc].
  rewrite run_bind. unfold ret at 1. rewrite run_bind. unfold get_category.
  rewrite Hc. eexists. split; [ reflexivity | ].
  cbn [heap]. now apply categories_in_grow.
Qed.

(** The product loop either returns, every name being a key of the
    mapping, or raises the KeyError of a name that is not. *)
Lemma add_products_spec (m : gmap string ref) (data : list (string * float * string)) :
  forall s,
    categories_in m (heap s) ->
    match fst (add_products m data s) with
    | Return _ => Forall (fun t => is_Some (m !! snd t)) data
    | Raise e =>
        exists k, e = KeyError k /\ m !! k = None /\ Exists (fun t => snd t = k) data
    end.
Proof.
  unfold add_products.
  induction data as [| [[name price] k] data IH]; intros s Hm.
  - constructor.
  - cbn [for_each]. rewrite run_bind.
    pose proof (add_product_run m name price k s Hm) as Hstep.
    destruct (m !! k) as [r |] eqn:Hk.
    + destruct Hstep as (s' & -> & Hm'). rewrite run_bind.
      specialize (IH s' Hm').
      destruct (for_each data (add_product m) s') as [[refs | e] s2]; cbn [fst ret] in *.
      * constructor; [ now exists r | exact IH ].
      * destruct IH as (k' & -> & Hnone & Hex).
        exists k'. split; [ reflexivity | split; [ exact Hnone | ] ].
        now apply Exists_cons_tl.
    + rewrite Hstep. cbn [fst]. exists k.
      split; [ reflexivity | split; [ exact Hk | ] ].
      now apply Exists_cons_hd.
Qed.

Lemma seed_categories_map (ps : list Product.row) :
  fst (seed_categories categories_data (Session (MkStore [] ps))) =
    Return seed_category_map.
Proof. vm_cast_no_check (eq_refl (Return seed_category_map)). Qed.

(** C6, as the specification states it, fails on a seed list with a
    product whose category is not among the categories: its name is not a
    key of the mapping and the seeder fails, but what it raises is not a
    SeedIntegrityError. *)
Lemma C6_lookup_failure_is_not_SeedIntegrityError :
  ~ (seed_category_map !! "Toys" = None ->
     fails_with_SeedIntegrityError
       (fst (seed categories_data [("Kite", decimal 999, "Toys")]
               (Session empty_store)))).
Proof.
  intros H.
  assert (seed_category_map !! "Toys" = None) as Hnone
    by (vm_compute; reflexivity).
  specialize (H Hnone). vm_compute in H. discriminate H.
Qed.

(** C6 (amended): when [populate_sample_data] runs on a store without
    categories, the mapping built from the categories just committed has
    every category name of the seed products as a key, so the product loop
    returns and so does the whole function: the failing lookup is never
    taken. Over any mapping and any list of products, the loop fails
    exactly when some product's category name is not a key, and the failure
    is then Python's KeyError of such a name: the program has no
    SeedIntegrityError. *)
Theorem C6_seed_names_resolve :
  (forall ps : list Product.row,
      fst (seed_categories categories_data (Session (MkStore [] ps))) =
        Return seed_category_map /\
      (exists refs, fst (stage (Session (MkStore [] ps))) = Return refs) /\
      fst (populate_sample_data (Session (MkStore [] ps))) = Return tt) /\
  Forall (fun t => is_Some (seed_category_map !! snd t)) products_data /\
  (forall (m : gmap string ref) (data : list (string * float * string)) (s : state),
      categories_in m (heap s) ->
      ((exists e, fst (add_products m data s) = Raise e) <->
       Exists (fun t => m !! snd t = None) data) /\
      (forall e,
          fst (add_products m data s) = Raise e ->
          exists k, e = KeyError k /\ m !! k = None)).
Proof.
  split; [ | split ].
  - intros ps. split; [ apply seed_categories_map | ]. split.
    + eexists. unfold Session. now rewrite stage_run.
    + destruct (populate_run ps []) as (rows & h & _ & Hrun).
      unfold Session. now rewrite Hrun.
  - apply (bool_decide_unpack _). vm_compute. exact I.
  - intros m data s Hm. pose proof (add_products_spec m data s Hm) as Hspec.
    destruct (fst (add_products m data s)) as [refs | e].
    + split.
      * split; [ intros [e He]; discriminate He | ].
        intros Hex. exfalso. rewrite Forall_forall in Hspec.
        apply Exists_exists in Hex as (t & Hin & Hnone).
        destruct (Hspec t Hin) as [r Hr]. congruence.
      * intros e He. discriminate He.
    + destruct Hspec as (k & -> & Hnone & Hex). split.
      * split; [ intros _ | intros _; now eexists ].
        apply Exists_exists in Hex as (t & Hin & <-).
        apply Exists_exists. now exists t.
      * intros e He. injection He as <-. now exists k.
Qed.

Example missing_name_raises_KeyError :
  fst (add_products seed_category_map [("Kite", decimal 999, "Toys")] staged) =
    Raise (KeyError "Toys").
Proof. vm_compute. reflexivity. Qed.

(** ** The order of the seeder's steps *)

Lemma history_staged : history staged = category_phase ++ EvCommit :: product_phase.
Proof. vm_compute. reflexivity. Qed.

Lemma filter_inserts (f : event -> bool) (rows : list Product.row) :
  (forall row, f (EvInsertProduct row) = false) ->
  List.filter f (map EvInsertProduct rows) = [].
Proof.
  intros Hf. induction rows as [| row rows IH]; simpl; [ reflexivity | ].
  now rewrite Hf.
Qed.

Lemma forallb_inserts (f : event -> bool) (rows : list Product.row) :
  (forall row, f (EvInsertProduct row) = true) ->
  forallb f (map EvInsertProduct rows) = true.
Proof.
  intros Hf. induction rows as [| row rows IH]; simpl; [ reflexivity | ].
  now rewrite Hf.
Qed.

(** What the two phases of a first run hold. *)
Lemma phases_of_first_run :
  forallb (fun e => negb (is_commit e)) category_phase = true /\
  map Category.category_name (inserted_categories category_phase) = categories_data /\
  category_rows = inserted_categories category_phase /\
  forallb (fun e => negb (constructs_product e)) category_phase = true /\
  length (List.filter constructs_product product_phase) = 17%nat /\
  forallb (references_inserted category_phase) product_phase = true.
Proof. vm_compute. repeat split; reflexivity. Qed.

Lemma categories_db_MkState cs ps t h p tr :
  categories (db (MkState (MkStore cs ps) t h p tr)) = cs.
Proof. reflexivity. Qed.

Lemma rev_cons_app {A} (x : A) (l : list A) : rev (x :: l) = rev l ++ [x].
Proof. reflexivity. Qed.

Lemma history_MkState d t h p tr : history (MkState d t h p tr) = rev tr.
Proof. reflexivity. Qed.

(** The history of [populate_sample_data] on a store without categories. *)
Lemma populate_history (ps : list Product.row) :
  exists s' rows,
    populate_sample_data (Session (MkStore [] ps)) = (Return tt, s') /\
    categories (db s') = category_rows /\
    history s' =
      category_phase ++ EvCommit
        :: product_phase ++ map EvInsertProduct rows ++ [EvCommit].
Proof.
  destruct (populate_run ps []) as (rows & h & _ & Hrun).
  eexists _, rows. split; [ exact Hrun | ].
  split; [ apply categories_db_MkState | ].
  rewrite history_MkState, app_nil_r, rev_cons_app, rev_app_distr, rev_involutive.
  pose proof history_staged as Hh. unfold history in Hh.
  rewrite Hh, <- !app_assoc, <- app_comm_cons. reflexivity.
Qed.

(** The state right after the first commit, whatever products the store
    holds. *)
Lemma seed_categories_state (ps : list Product.row) :
  snd (seed_categories categories_data (Session (MkStore [] ps))) =
    MkState (MkStore category_rows ps) (MkStore category_rows ps)
      (heap committed) [] (trace committed).
Proof. vm_compute. reflexivity. Qed.

Lemma committed_facts :
  rev (trace committed) = category_phase ++ [EvCommit] /\
  heap committed = map instance_of category_rows.
Proof. vm_compute. split; reflexivity. Qed.

(** C7: in a run of [populate_sample_data] on a store without categories,
    the history splits at its first commit. Before it the five category
    rows are inserted, in the order of the seed names, and no product is
    constructed. At that commit the rows are in the file and every category
    instance holds the identifier the store gave its row. All seventeen
    products are constructed after it, each with the identifier of one of
    those rows. *)
Theorem C7_categories_committed_before_products (ps : list Product.row) :
  exists s1 s' before after,
    snd (seed_categories categories_data (Session (MkStore [] ps))) = s1 /\
    populate_sample_data (Session (MkStore [] ps)) = (Return tt, s') /\
    history s1 = before ++ [EvCommit] /\
    history s' = before ++ EvCommit :: after /\
    forallb (fun e => negb (is_commit e)) before = true /\
    forallb (fun e => negb (constructs_product e)) before = true /\
    map Category.category_name (inserted_categories before) = categories_data /\
    categories (db s1) = inserted_categories before /\
    heap s1 = map instance_of (inserted_categories before) /\
    categories (db s') = inserted_categories before /\
    length (List.filter constructs_product after) = 17%nat /\
    forallb (references_inserted before) after = true.
Proof.
  destruct (populate_history ps) as (s' & rows & Hrun & Hcats & Hhist).
  destruct phases_of_first_run as (Hfirst & Hnames & Hrows & Hnone & Hcount & Hrefs).
  destruct committed_facts as [Hhist1 Hheap1].
  eexists _, s', category_phase,
    (product_phase ++ map EvInsertProduct rows ++ [EvCommit]).
  split; [ apply seed_categories_state | ].
  split; [ exact Hrun | ].
  split; [ rewrite history_MkState; exact Hhist1 | ].
  split; [ exact Hhist | ].
  split; [ exact Hfirst | ].
  split; [ exact Hnone | ].
  split; [ exact Hnames | ].
  split; [ rewrite categories_db_MkState; exact Hrows | ].
  split; [ cbn [heap]; now rewrite <- Hrows | ].
  split; [ now rewrite Hcats | ].
  split.
  - rewrite !List.filter_app, filter_inserts by reflexivity.
    rewrite !length_app, Hcount. reflexivity.
  - rewrite !forallb_app, forallb_inserts by reflexivity.
    rewrite Hrefs. reflexivity.
Qed.

(** Were the products built before the categories are flushed, each would
    carry no category identifier and the commit would be refused: the
    order of the two steps is what gives the products their categories. *)
Example products_before_commit_are_refused :
  fst ((categories <- add_categories categories_data ;;
        category_map <- build_category_map categories ∅ ;;
        add_products category_map products_data ;;
        commit) (Session empty_store)) =
    Raise (IntegrityError "NOT NULL constraint failed: products.category_id").
Proof. vm_compute. reflexivity. Qed.


(** ** The report as a function of the tables *)

Lemma sections_run (cats : list Category.row) :
  forall d st h tr,
    for_each cats section_of (MkState d st h [] tr) =
      (Return (map (section_in st) cats),
       MkState d st h []
         (rev (map (fun c => EvQuery (QProductByCategory (Category.category_id c))) cats)
            ++ tr)).
Proof.
  induction cats as [| c cats IH]; intros d st h tr; [ reflexivity | ].
  cbn [for_each]. rewrite run_bind. unfold section_of at 1.
  unfold query_Product_filter_by. rewrite run_bind, select_settled by reflexivity.
  cbn [ret db txn heap pending trace]. rewrite run_bind, IH.
  cbn [map rev ret]. now rewrite <- app_assoc.
Qed.

Lemma statistics_run d cs p ps h tr :
  overall_statistics (MkState d (MkStore cs (p :: ps)) h [] tr) =
    (stats_in (MkStore cs (p :: ps)),
     MkState d (MkStore cs (p :: ps)) h []
       (EvQuery QProductPriceAscFirst :: EvQuery QProductPriceDescFirst
          :: EvQuery QProductPrices :: EvQuery QCategoryCount
          :: EvQuery QProductCount :: tr)).
Proof. reflexivity. Qed.

Lemma report_run d cs p ps h tr :
  let st := MkStore cs (p :: ps) in
  retrieve_and_display_data (MkState d st h [] tr) =
    (report_in st,
     MkState d st h [] (rev (map EvQuery (report_queries st)) ++ tr)).
Proof.
  cbv zeta. unfold retrieve_and_display_data, query_Category_all.
  rewrite run_bind, select_settled by reflexivity.
  cbn [db txn heap pending trace categories]. rewrite run_bind, sections_run.
  rewrite run_bind, statistics_run.
  unfold report_in, report_queries. cbn [categories].
  replace (stats_in (MkStore cs (p :: ps)))
    with (Return (MkStats (Z.of_nat (length (p :: ps))) (Z.of_nat (length cs))
                    (PyFloat (fdiv (to_float (py_sum (map PyFloat (map Product.price (p :: ps)))))
                               (to_float (PyInt (Z.of_nat (length (map Product.price (p :: ps))))))))
                    (fold_left (fun best q => if fltb (Product.price best) (Product.price q)
                                              then q else best) ps p)
                    (fold_left (fun best q => if fltb (Product.price q) (Product.price best)
                                              then q else best) ps p)))
    by reflexivity.
  unfold query_Product_join_Category. rewrite run_bind, select_settled by reflexivity.
  cbn [ret db txn heap pending trace].
  f_equal. f_equal.
  rewrite map_cons, rev_cons_app, map_app, rev_app_distr, map_map.
  cbn [map rev app]. rewrite <- !app_assoc. reflexivity.
Qed.

Lemma report_zero_products_settled d cs h tr :
  fst (retrieve_and_display_data (MkState d (MkStore cs []) h [] tr)) =
    Raise ZeroDivisionError.
Proof.
  unfold retrieve_and_display_data, query_Category_all.
  rewrite run_bind, select_settled by reflexivity.
  cbn [db txn heap pending trace categories]. rewrite run_bind, sections_run.
  rewrite run_bind, overall_statistics_zero_products; reflexivity.
Qed.

Lemma report_in_cases (st : Store) :
  (products st = [] -> report_in st = Raise ZeroDivisionError) /\
  (products st <> [] -> exists r, report_in st = Return r).
Proof.
  destruct st as [cs [| p ps]]; split; intros H.
  - reflexivity.
  - now contradiction H.
  - discriminate H.
  - eexists. reflexivity.
Qed.

Lemma report_settled (s : state) :
  pending s = [] -> fst (retrieve_and_display_data s) = report_in (txn s).
Proof.
  destruct s as [d [cs [| p ps]] h pend tr]; cbn [pending txn]; intros ->.
  - now rewrite report_zero_products_settled.
  - now rewrite report_run.
Qed.

(** *** Any state of the session

    A query flushes what the session holds pending, so the report called
    with instances pending goes the way it goes after their flush. *)

Lemma flush_pending (s s1 : state) (r : result unit) :
  flush s = (r, s1) -> pending s1 = [].
Proof.
  unfold flush. destruct (flush_all (pending s) s) as [[[] | e] s'];
    intros [= _ <-]; reflexivity.
Qed.

Lemma report_after_flush (s : state) :
  retrieve_and_display_data s =
    match flush s with
    | (Return _, s1) => retrieve_and_display_data s1
    | (Raise e, s1) => (Raise e, s1)
    end.
Proof.
  unfold retrieve_and_display_data, query_Category_all, select.
  rewrite !bind_assoc, run_bind.
  destruct (flush s) as [[[] | e] s1] eqn:Hflush; [ | reflexivity ].
  rewrite !bind_assoc, (run_bind flush).
  now rewrite (flush_settled s1 (flush_pending _ _ _ Hflush)).
Qed.

(** All a flush logs are its INSERTs. *)
Lemma flush_all_log (rs : list ref) :
  forall s r s',
    flush_all rs s = (r, s') ->
    exists inserts,
      trace s' = rev inserts ++ trace s /\ forallb is_insert inserts = true.
Proof.
  induction rs as [| x rs IH]; intros s r s' Hrun.
  - injection Hrun as <- <-. now exists [].
  - cbn [flush_all] in Hrun. rewrite run_bind in Hrun.
    assert (exists evs,
               trace (snd (flush_one x s)) = rev evs ++ trace s /\
               forallb is_insert evs = true) as (evs & Hevs & Hins).
    { unfold flush_one.
      destruct (heap s !! x) as [[[[id |] name] | [[pid |] name price [cid |]]] |];
        try (now exists []).
      - destruct (existsb (String.eqb name)
                    (map Category.category_name (categories (txn s))));
          [ now exists [] | ].
        now eexists [_].
      - now eexists [_]. }
    destruct (flush_one x s) as [[[] | e] s1]; cbn [snd] in Hevs.
    + destruct (IH _ _ _ Hrun) as (inserts & Htr & Hall).
      exists (evs ++ inserts). rewrite Htr, Hevs, rev_app_distr, <- app_assoc.
      split; [ reflexivity | ]. rewrite forallb_app, Hins, Hall. reflexivity.
    + injection Hrun as <- <-. now exists evs.
Qed.

Lemma flush_log (s s1 : state) :
  flush s = (Return tt, s1) ->
  db s1 = db s /\
  exists inserts,
    trace s1 = rev inserts ++ trace s /\
    forallb is_insert inserts = true /\
    (pending s = [] -> inserts = []).
Proof.
  intros Hflush. split.
  - pose proof (flush_db (db s) s eq_refl) as Hdb. now rewrite Hflush in Hdb.
  - destruct (pending s) as [| x rs] eqn:Hp.
    + rewrite (flush_settled s Hp) in Hflush. injection Hflush as <-.
      now exists [].
    + unfold flush in Hflush. rewrite Hp in Hflush.
      destruct (flush_all (x :: rs) s) as [[[] | e] s'] eqn:Hall;
        [ | discriminate Hflush ].
      injection Hflush as <-. cbn [set_pending trace].
      destruct (flush_all_log _ _ _ _ Hall) as (inserts & Htr & Hins).
      exists inserts. split; [ exact Htr | ]. split; [ exact Hins | ].
      intros Hnil. discriminate Hnil.
Qed.

(** A report that returns: the flush went through and left a product to
    report on. *)
Lemma report_returns (s : state) (r : Report) :
  fst (retrieve_and_display_data s) = Return r ->
  exists s1,
    flush s = (Return tt, s1) /\
    report_in (txn s1) = Return r /\
    snd (retrieve_and_display_data s) =
      MkState (db s1) (txn s1) (heap s1) []
        (rev (map EvQuery (report_queries (txn s1))) ++ trace s1).
Proof.
  rewrite report_after_flush.
  destruct (flush s) as [[[] | e] s1] eqn:Hflush; [ | discriminate ].
  apply flush_pending in Hflush as Hp.
  destruct s1 as [d [cs [| p ps]] h pend tr]; cbn [pending] in Hp; subst pend.
  - rewrite report_zero_products_settled. discriminate.
  - rewrite report_run. cbn [fst snd db txn heap trace]. intros Hr.
    eexists. split; [ reflexivity | ]. split; [ exact Hr | reflexivity ].
Qed.

(** The total of a section: the int [0] when it has no product, and
    otherwise the doubles added from left to right, from zero. *)
Lemma total_value_sum (ps : list Product.row) :
  total_value ps =
    match ps with
    | [] => PyInt 0
    | _ :: _ => PyFloat (fold_left fadd (map Product.price ps) (float_of_Z 0))
    end.
Proof.
  destruct ps as [| p ps]; [ reflexivity | ].
  unfold total_value. cbn [fold_left map].
  change (py_add (PyInt 0) (PyFloat (Product.price p)))
    with (PyFloat (fadd (float_of_Z 0) (Product.price p))).
  generalize (fadd (float_of_Z 0) (Product.price p)).
  induction ps as [| q ps IH]; intros acc; [ reflexivity | ].
  cbn [fold_left map]. exact (IH (fadd acc (Product.price q))).
Qed.

(** X1: what a report that returns shows is determined by the rows its
    transaction sees. The listing is the whole [categories] table; there is
    one section per category, in the listing's order, holding exactly the
    products whose [category_id] is the category's, in table order; the
    total of a section is the int 0 when it has no product and otherwise
    the sum of its prices added as doubles from left to right; the two
    counts are the sizes of the tables; and the detailed list holds a pair
    of a product and a category exactly when the category's identifier is
    the product's [category_id]. *)
Theorem X1_report_of_tables (s : state) (r : Report) :
  fst (retrieve_and_display_data s) = Return r ->
  let st := txn (snd (retrieve_and_display_data s)) in
  listing r = categories st /\
  map (fun sec => fst (fst sec)) (by_category r) = categories st /\
  Forall
    (fun sec =>
       snd (fst sec) =
         List.filter
           (fun p => Product.category_id p =? Category.category_id (fst (fst sec)))
           (products st) /\
       snd sec =
         match snd (fst sec) with
         | [] => PyInt 0
         | _ :: _ =>
             PyFloat (fold_left fadd (map Product.price (snd (fst sec))) (float_of_Z 0))
         end)
    (by_category r) /\
  total_products (stats r) = Z.of_nat (length (products st)) /\
  total_categories (stats r) = Z.of_nat (length (categories st)) /\
  (forall p c,
      In (p, c) (results r) <->
      In p (products st) /\ In c (categories st) /\
      Category.category_id c = Product.category_id p).
Proof.
  intros Hr. cbv zeta.
  destruct (report_returns s r Hr) as (s1 & _ & Hin & ->). cbn [txn].
  destruct (txn s1) as [cs [| p ps]]; [ discriminate Hin | ].
  injection Hin as <-. cbn [listing by_category stats results total_products
                              total_categories categories products].
  split; [ reflexivity | ].
  split; [ rewrite map_map; apply map_id | ].
  split; [ | split; [ reflexivity | split; [ reflexivity | intros q c; apply join_spec ] ] ].
  apply Forall_forall. intros sec Hsec.
  apply list_elem_of_In, in_map_iff in Hsec as (c & <- & _).
  unfold section_in. cbn [fst snd products]. split; [ reflexivity | ].
  apply total_value_sum.
Qed.

Lemma X1_report_of_tables_witness :
  exists r,
    fst (retrieve_and_display_data seeded) = Return r /\
    listing r = categories (txn (snd (retrieve_and_display_data seeded))).
Proof.
  assert (exists r, fst (retrieve_and_display_data seeded) = Return r) as [r Hr].
  { rewrite (report_settled seeded eq_refl). apply report_in_cases.
    vm_compute. discriminate. }
  exists r. split; [ exact Hr | ].
  pose proof (X1_report_of_tables seeded r Hr) as H. cbv zeta in H.
  exact (proj1 H).
Defined.

(** X3: all that a report that returns does to the session is, in this
    order: the INSERTs by which its first query flushes the instances that
    were pending when it was called (none when nothing was pending), then
    one [session.query] for the categories, one per category for its
    products, the five of the statistics and the join, seven plus the
    number of categories in all. It neither commits nor rolls back. *)
Theorem X3_report_queries (s : state) (r : Report) :
  fst (retrieve_and_display_data s) = Return r ->
  let s' := snd (retrieve_and_display_data s) in
  exists inserts,
    history s' = history s ++ inserts ++ map EvQuery (report_queries (txn s')) /\
    forallb is_insert inserts = true /\
    (pending s = [] -> inserts = []) /\
    length (report_queries (txn s')) = (7 + length (categories (txn s')))%nat.
Proof.
  intros Hr. cbv zeta.
  destruct (report_returns s r Hr) as (s1 & Hflush & _ & ->). cbn [txn].
  destruct (flush_log s s1 Hflush) as (_ & inserts & Htr & Hins & Hnone).
  exists inserts. split; [ | split; [ exact Hins | split; [ exact Hnone | ] ] ].
  - rewrite history_MkState. unfold history.
    rewrite Htr, !rev_app_distr, !rev_involutive, app_assoc. reflexivity.
  - unfold report_queries. cbn [length].
    rewrite length_app, length_map. cbn [length]. lia.
Qed.

Lemma X3_report_queries_witness :
  exists r,
    fst (retrieve_and_display_data seeded) = Return r /\
    history (snd (retrieve_and_display_data seeded)) =
      history seeded
        ++ map EvQuery (report_queries (txn (snd (retrieve_and_display_data seeded)))).
Proof.
  assert (exists r, fst (retrieve_and_display_data seeded) = Return r) as [r Hr].
  { rewrite (report_settled seeded eq_refl). apply report_in_cases.
    vm_compute. discriminate. }
  exists r. split; [ exact Hr | ].
  pose proof (X3_report_queries seeded r Hr) as H. cbv zeta in H.
  destruct H as (inserts & Hhist & _ & Hnone & _).
  rewrite (Hnone eq_refl) in Hhist. exact Hhist.
Defined.

(** ** Sections and join under referential integrity *)

Lemma join_cons cs p ps :
  join (MkStore cs (p :: ps)) =
    map (fun c => (p, c))
      (List.filter (fun c => Category.category_id c =? Product.category_id p) cs)
    ++ join (MkStore cs ps).
Proof. reflexivity. Qed.

Lemma referential_integrity_cons cs p ps :
  referential_integrity (MkStore cs (p :: ps)) ->
  (exists c, List.filter (fun c => Category.category_id c =? Product.category_id p) cs = [c]) /\
  referential_integrity (MkStore cs ps).
Proof.
  unfold referential_integrity. cbn [products categories]. intros H.
  apply Forall_cons in H as [Hp Hps]. split; [ | exact Hps ].
  destruct (List.filter _ cs) as [| c [| c' l]]; try discriminate Hp. now exists c.
Qed.

(** X4: when each product has exactly one category row with its
    [category_id], the join has exactly one pair per product, in the
    products' order (so a product is neither dropped nor repeated), and the
    category of each pair is that row. *)
Theorem X4_join_one_pair_per_product (st : Store) :
  referential_integrity st ->
  map fst (join st) = products st /\
  length (join st) = length (products st) /\
  Forall (fun pc => In (snd pc) (categories st) /\
                    Category.category_id (snd pc) = Product.category_id (fst pc))
    (join st).
Proof.
  intros Hint.
  assert (map fst (join st) = products st) as Hfst.
  { destruct st as [cs ps]. cbn [products]. induction ps as [| p ps IH].
    - reflexivity.
    - apply referential_integrity_cons in Hint as [[c Hc] Hint].
      rewrite join_cons, Hc. cbn [map app fst]. now rewrite IH. }
  split; [ exact Hfst | ]. split.
  - now rewrite <- Hfst, length_map.
  - apply Forall_forall. intros [p c] Hin. apply list_elem_of_In in Hin.
    apply join_spec in Hin as (_ & Hc & Hid). cbn [fst snd]. now split.
Qed.

Lemma X4_join_witness :
  referential_integrity (db seeded) /\
  map fst (join (db seeded)) = products (db seeded).
Proof.
  assert (referential_integrity (db seeded)) as Hint
    by (vm_compute; repeat constructor).
  split; [ exact Hint | ].
  exact (proj1 (X4_join_one_pair_per_product (db seeded) Hint)).
Defined.




(** ** Whole runs of [main] *)

Lemma create_database_Some (st : Store) : create_database (Some st) = st.
Proof. reflexivity. Qed.

(** What the seeding step leaves in the file. *)
Lemma seed_if_empty_db (st : Store) :
  exists s1,
    seed_if_empty (Session st) = (Return tt, s1) /\
    pending s1 = [] /\ txn s1 = db s1 /\
    categories (db s1) <> [] /\
    (categories st <> [] -> db s1 = st) /\
    (categories st = [] -> products (db s1) <> []).
Proof.
  destruct st as [[| c cs] ps].
  - destruct (seed_if_empty_vacant ps) as (rows & h & Hlen & Hrun).
    eexists. split; [ exact Hrun | ]. cbn [pending txn db categories products].
    split; [ reflexivity | ]. split; [ reflexivity | ].
    split; [ exact category_rows_not_nil | ].
    split; [ intros Hne; now contradiction Hne | ].
    intros _ Hnil. apply (f_equal (@length _)) in Hnil.
    rewrite length_app, Hlen in Hnil. cbn [length] in Hnil. lia.
  - eexists. split; [ apply seed_if_empty_populated; [ reflexivity | discriminate ] | ].
    cbn [pending txn db categories products Session].
    split; [ reflexivity | ]. split; [ reflexivity | ].
    split; [ discriminate | ].
    split; [ reflexivity | intros Hnil; discriminate Hnil ].
Qed.

Lemma main_result (file : option Store) :
  fst (main file) =
    report_in (db (snd (seed_if_empty (Session (create_database file))))).
Proof.
  destruct (seed_if_empty_db (create_database file)) as (s1 & Hrun & Hp & Ht & _).
  unfold main. rewrite run_bind, Hrun. cbn [snd]. rewrite run_bind.
  pose proof (report_settled s1 Hp) as Hrep. rewrite Ht in Hrep.
  destruct (retrieve_and_display_data s1) as [[r | e] s2]; cbn [fst] in Hrep;
    now rewrite <- Hrep.
Qed.

(** X6: on a file that has a category and no product, as the file is
    after the first commit of [populate_sample_data] and before the
    second, [main] skips the seeding because of the category and fails in
    the report, where line 160 divides by the number of products: the
    error is ZeroDivisionError and the file is left as it was, so that
    every later run fails the same way. *)
Theorem X6_main_fails_on_categories_without_products (st : Store) :
  categories st <> [] ->
  products st = [] ->
  fst (main (Some st)) = Raise ZeroDivisionError /\
  db (snd (main (Some st))) = st /\
  fst (main (Some (db (snd (main (Some st)))))) = Raise ZeroDivisionError.
Proof.
  intros Hcats Hps.
  assert (fst (main (Some st)) = Raise ZeroDivisionError /\
          db (snd (main (Some st))) = st) as [Hfails Hfile].
  { rewrite main_result, main_db, create_database_Some.
    destruct (seed_if_empty_db st) as (s1 & Hrun & _ & _ & _ & Hsame & _).
    rewrite Hrun. cbn [snd]. rewrite (Hsame Hcats).
    split; [ | reflexivity ].
    now apply report_in_cases. }
  split; [ exact Hfails | ]. split; [ exact Hfile | ].
  rewrite Hfile. exact Hfails.
Qed.

Lemma X6_main_fails_witness :
  categories (db committed) <> [] /\
  products (db committed) = [] /\
  fst (main (Some (db committed))) = Raise ZeroDivisionError.
Proof.
  assert (categories (db committed) <> []) as Hcats by (vm_compute; discriminate).
  assert (products (db committed) = []) as Hps by reflexivity.
  split; [ exact Hcats | split; [ exact Hps | ] ].
  exact (proj1 (X6_main_fails_on_categories_without_products (db committed) Hcats Hps)).
Defined.

(** X7: for every file, a second run of [main] on the file the first run
    left behind leaves that file as it is and comes to the same result as
    the first: the same report, or the same failure. *)
Theorem X7_main_twice (file : option Store) :
  let s1 := snd (main file) in
  db (snd (main (Some (db s1)))) = db s1 /\
  fst (main (Some (db s1))) = fst (main file).
Proof.
  cbv zeta. rewrite !main_result, !main_db.
  destruct (seed_if_empty_db (create_database file)) as (s1 & Hrun & _ & _ & Hne & _).
  rewrite Hrun. cbn [snd]. rewrite !create_database_Some.
  destruct (seed_if_empty_db (db s1)) as (s2 & Hrun2 & _ & _ & _ & Hsame & _).
  rewrite Hrun2. cbn [snd]. rewrite (Hsame Hne). split; reflexivity.
Qed.

(** ** Flushing new categories *)

Lemma existsb_name (name : string) (names : list string) :
  existsb (String.eqb name) names = true <-> In name names.
Proof.
  rewrite existsb_exists. split.
  - intros (n & Hin & Heq). apply String.eqb_eq in Heq. now subst.
  - intros Hin. exists name. split; [ exact Hin | apply String.eqb_refl ].
Qed.

Lemma Forall2_impl_elem {A B} (P Q : A -> B -> Prop) (l : list A) (k : list B) :
  Forall2 P l k -> (forall x y, x ∈ l -> P x y -> Q x y) -> Forall2 Q l k.
Proof.
  induction 1 as [| x y l k Hxy _ IH]; intros Himp; constructor.
  - apply Himp; [ left | exact Hxy ].
  - apply IH. intros x' y' Hin. apply Himp. now right.
Qed.

(** A batch of distinct new categories goes the way [insert_categories]
    tells: all rows inserted, or a UNIQUE failure with nothing committed. *)
Lemma flush_all_new_categories (rs : list ref) :
  forall names s,
    NoDup rs ->
    Forall2 (fun r name => heap s !! r = Some (CategoryObj (Category.Obj None name)))
      rs names ->
    exists s',
      db s' = db s /\
      match insert_categories names (categories (txn s)) with
      | Some cs' =>
          flush_all rs s = (Return tt, s') /\
          txn s' = MkStore cs' (products (txn s)) /\
          pending s' = pending s
      | None => flush_all rs s = (Raise unique_name_failure, s')
      end.
Proof.
  induction rs as [| r rs IH]; intros names s Hnd Hheap.
  - apply Forall2_nil_inv_l in Hheap as ->. exists s. split; [ reflexivity | ].
    cbn [insert_categories flush_all]. destruct s as [d [cs ps] h p tr].
    repeat split.
  - apply Forall2_cons_inv_l in Hheap as (name & names' & Hr & Hrest & ->).
    apply NoDup_cons in Hnd as [Hnotin Hnd].
    cbn [insert_categories flush_all]. rewrite run_bind.
    unfold flush_one. rewrite Hr.
    destruct (existsb (String.eqb name) (map Category.category_name (categories (txn s)))).
    + exists s. split; reflexivity.
    + match goal with |- context [flush_all rs ?s1] =>
        destruct (IH names' s1 Hnd) as (s' & Hdb & Hrun)
      end.
      { cbn [heap]. eapply Forall2_impl_elem; [ exact Hrest | ].
        intros r' name' Hin Hr'. cbv beta in *.
        rewrite list_lookup_insert_ne; [ exact Hr' | ].
        intros ->. now apply Hnotin. }
      exists s'. cbn [db txn categories products pending] in Hdb, Hrun.
      split; [ exact Hdb | exact Hrun ].
Qed.

Lemma insert_categories_taken (names : list string) :
  forall cs name,
    In name names ->
    In name (map Category.category_name cs) ->
    insert_categories names cs = None.
Proof.
  induction names as [| n names IH]; intros cs name Hin Htaken; [ destruct Hin | ].
  cbn [insert_categories].
  destruct (existsb (String.eqb n) (map Category.category_name cs)) eqn:Hn;
    [ reflexivity | ].
  destruct Hin as [-> | Hin].
  - apply existsb_name in Htaken. congruence.
  - apply (IH _ name Hin). rewrite map_app. apply in_or_app. now left.
Qed.

(** Lines 72-76 on any store: five pending instances, nothing written. *)
Lemma add_categories_run (st : Store) :
  add_categories categories_data (Session st) =
    (Return (pending added),
     MkState st st (heap added) (pending added) (trace added)).
Proof. destruct st as [cs ps]. vm_compute. reflexivity. Qed.

Lemma added_ready :
  NoDup (pending added) /\
  Forall2 (fun r name => heap added !! r = Some (CategoryObj (Category.Obj None name)))
    (pending added) categories_data.
Proof.
  split.
  - apply (bool_decide_unpack _). vm_compute. reflexivity.
  - vm_compute. repeat constructor.
Qed.

(** X8: called on a store that already has a category bearing one of the
    five seed names (a store it has seeded, for one), and so without the
    guard of [main], [populate_sample_data] fails at its first commit with
    the UNIQUE IntegrityError; the transaction is rolled back and the file
    is left exactly as it was. *)
Theorem X8_populate_refused_on_taken_name (st : Store) :
  (exists name,
      In name categories_data /\ In name (map Category.category_name (categories st))) ->
  exists s',
    populate_sample_data (Session st) = (Raise unique_name_failure, s') /\
    db s' = st /\ txn s' = st /\ pending s' = [].
Proof.
  intros (name & Hseed & Htaken).
  destruct added_ready as [Hnd Hheap].
  destruct (flush_all_new_categories (pending added) categories_data
              (MkState st st (heap added) (pending added) (trace added)) Hnd Hheap)
    as (s1 & Hdb & Hrun).
  cbn [txn db] in Hdb, Hrun.
  rewrite (insert_categories_taken categories_data (categories st) name Hseed Htaken)
    in Hrun.
  unfold populate_sample_data, seed. rewrite run_bind.
  unfold seed_categories. rewrite run_bind, add_categories_run.
  cbv beta iota. rewrite run_bind. unfold commit. rewrite run_bind.
  unfold flush. cbn [pending]. rewrite Hrun. cbv beta iota.
  eexists. split; [ reflexivity | ]. cbn [db txn pending]. rewrite Hdb.
  repeat split.
Qed.

Lemma X8_populate_refused_witness :
  (exists name,
      In name categories_data /\
      In name (map Category.category_name (categories (db seeded)))) /\
  fst (populate_sample_data (Session (db seeded))) = Raise unique_name_failure.
Proof.
  assert (exists name,
             In name categories_data /\
             In name (map Category.category_name (categories (db seeded)))) as Hex.
  { exists "Books". split; vm_compute; tauto. }
  split; [ exact Hex | ].
  destruct (X8_populate_refused_on_taken_name (db seeded) Hex) as (s' & Hrun & _).
  now rewrite Hrun.
Defined.

(** ** What seeding adds to the products *)

(** A batch of distinct new products is inserted as [insert_products]
    tells. *)
Lemma flush_all_new_products (rs : list ref) :
  forall items s,
    NoDup rs ->
    Forall2 (fun r item => heap s !! r ≫= product_item = Some item) rs items ->
    exists s',
      flush_all rs s = (Return tt, s') /\
      db s' = db s /\
      txn s' = MkStore (categories (txn s)) (insert_products items (products (txn s))) /\
      pending s' = pending s.
Proof.
  induction rs as [| r rs IH]; intros items s Hnd Hheap.
  - apply Forall2_nil_inv_l in Hheap as ->. exists s.
    destruct s as [d [cs ps] h p tr]. repeat split.
  - apply Forall2_cons_inv_l in Hheap as (item & items' & Hr & Hrest & ->).
    apply NoDup_cons in Hnd as [Hnotin Hnd].
    cbn [flush_all]. rewrite run_bind. unfold flush_one.
    destruct (heap s !! r) as [[c | [[pid |] name price [cid |]]] |];
      try discriminate Hr.
    injection Hr as <-. cbn [insert_products].
    match goal with |- context [flush_all rs ?s1] =>
      destruct (IH items' s1 Hnd) as (s' & Hrun & Hdb & Htxn & Hp)
    end.
    { cbn [heap]. eapply Forall2_impl_elem; [ exact Hrest | ].
      intros r' item' Hin Hr'. cbv beta in *.
      rewrite list_lookup_insert_ne; [ exact Hr' | ].
      intros ->. now apply Hnotin. }
    exists s'. cbn [db txn categories products pending] in Hdb, Htxn, Hp.
    repeat split; assumption.
Qed.

Lemma Forall2_compose {A B C} (P : A -> B -> Prop) (Q : B -> C -> Prop)
    (R : A -> C -> Prop) (l : list A) (k : list B) (m : list C) :
  (forall x y z, P x y -> Q y z -> R x z) ->
  Forall2 P l k -> Forall2 Q k m -> Forall2 R l m.
Proof.
  intros HR HP. revert m. induction HP as [| x y l k Hxy _ IH]; intros m HQ.
  - apply Forall2_nil_inv_l in HQ as ->. constructor.
  - apply Forall2_cons_inv_l in HQ as (z & m' & Hyz & HQ & ->).
    constructor; [ now apply (HR x y z) | now apply IH ].
Qed.

(** The new rows follow the old ones, carry what the items hold, and
    have identifiers above every old one, in ascending order. *)
Lemma insert_products_spec (items : list (string * float * Z)) :
  forall ps,
    exists rows,
      insert_products items ps = ps ++ rows /\
      Forall2 (fun row item =>
                 (Product.product_name row, Product.price row, Product.category_id row)
                 = item) rows items /\
      Forall (fun row => Forall (fun p => Product.product_id p < Product.product_id row) ps)
        rows /\
      ascending (map Product.product_id rows).
Proof.
  induction items as [| [[name price] cid] items IH]; intros ps.
  - exists []. cbn [insert_products]. rewrite app_nil_r.
    repeat split; constructor.
  - cbn [insert_products].
    set (row := Product.Row (next_rowid (map Product.product_id ps)) name price cid).
    destruct (IH (ps ++ [row])) as (rows & Heq & Hitems & Habove & Hasc).
    exists (row :: rows). rewrite Heq, <- app_assoc.
    split; [ reflexivity | ].
    split; [ constructor; [ reflexivity | exact Hitems ] | ].
    assert (Forall (fun p => Product.product_id p < Product.product_id row) ps) as Hrow.
    { pose proof (next_rowid_above (map Product.product_id ps)) as H.
      rewrite Forall_map in H. exact H. }
    split.
    + constructor; [ exact Hrow | ].
      eapply Forall_impl; [ exact Habove | ].
      intros r Hr. cbv beta in Hr. now apply Forall_app in Hr as [Hr _].
    + cbn [map]. constructor; [ exact Hasc | ].
      rewrite Forall_map. eapply Forall_impl; [ exact Habove | ].
      intros r Hr. cbv beta in Hr. apply Forall_app in Hr as [_ Hr].
      rewrite Forall_singleton in Hr. exact Hr.
Qed.

Lemma staged_holds_items :
  Forall2 (fun r item => heap staged !! r ≫= product_item = Some item)
    (pending staged) staged_items.
Proof. vm_compute. repeat constructor. Qed.

(** Each pending product holds the name and price of its seed item and
    the identifier of the committed category of the item's name. *)
Lemma staged_items_resolved :
  Forall2
    (fun item seed =>
       fst item = fst seed /\
       exists c, In c category_rows /\
                 Category.category_name c = snd seed /\
                 Category.category_id c = snd item)
    staged_items products_data.
Proof.
  vm_compute.
  repeat (constructor;
          [ split; [ reflexivity | ];
            first [ eexists; split; [ left; reflexivity | split; reflexivity ]
                  | eexists; split; [ right; left; reflexivity | split; reflexivity ]
                  | eexists; split; [ do 2 right; left; reflexivity | split; reflexivity ]
                  | eexists; split; [ do 3 right; left; reflexivity | split; reflexivity ]
                  | eexists; split; [ do 4 right; left; reflexivity | split; reflexivity ] ]
          | ]).
  constructor.
Qed.

(** The identifiers of a batch run on from the next one. *)
Lemma next_rowid_next (ids : list Z) :
  next_rowid (ids ++ [next_rowid ids]) = next_rowid ids + 1.
Proof.
  destruct ids as [| i rest]; [ reflexivity | ].
  unfold next_rowid. cbn [app]. rewrite fold_left_app. cbn [fold_left].
  lia.
Qed.

Lemma insert_products_ids (items : list (string * float * Z)) :
  forall ps rows,
    insert_products items ps = ps ++ rows ->
    map Product.product_id rows =
      map (fun i => next_rowid (map Product.product_id ps) + Z.of_nat i)
        (seq 0 (length items)).
Proof.
  induction items as [| [[name price] cid] items IH]; intros ps rows Heq.
  - cbn [insert_products] in Heq.
    rewrite <- (app_nil_r ps) in Heq at 1. apply app_inv_head in Heq as <-.
    reflexivity.
  - cbn [insert_products] in Heq.
    destruct (insert_products_spec items
                (ps ++ [Product.Row (next_rowid (map Product.product_id ps))
                          name price cid]))
      as (rows' & Heq' & _).
    rewrite Heq', <- app_assoc in Heq. apply app_inv_head in Heq as <-.
    cbn [app map Product.product_id length seq].
    f_equal; [ lia | ].
    rewrite (IH _ _ Heq'), map_app. cbn [map Product.product_id].
    rewrite next_rowid_next, <- seq_shift, map_map.
    apply map_ext. intros i. lia.
Qed.

Lemma next_rowid_le (ids : list Z) (bound : Z) :
  0 <= bound -> Forall (fun x => x <= bound) ids -> next_rowid ids <= bound + 1.
Proof.
  intros Hpos Hall. destruct ids as [| i rest]; [ cbn; lia | ].
  unfold next_rowid. apply Forall_cons in Hall as [Hi Hrest].
  enough (fold_left Z.max rest i <= bound) by lia.
  revert i Hi. induction Hrest as [| x rest Hx _ IH]; intros i Hi; [ exact Hi | ].
  cbn [fold_left]. apply IH. lia.
Qed.

(** X9: on a store without categories whose product identifiers leave
    room for seventeen more below [max_rowid],
    [populate_sample_data] keeps every product row as it is and appends
    seventeen rows after them, one per seed item and in the seed's order:
    each has the item's name and price and the identifier of the committed
    category bearing the item's category name; their identifiers are the
    seventeen that follow the largest one the table held (1 to 17 in an
    empty table), so they are above every identifier the table held, in
    ascending order, and none exceeds [max_rowid]. *)
Theorem X9_populate_appends_seed_products (ps : list Product.row) :
  Forall (fun p => Product.product_id p <= max_rowid - 17) ps ->
  exists s' rows,
    populate_sample_data (Session (MkStore [] ps)) = (Return tt, s') /\
    categories (db s') = category_rows /\
    products (db s') = ps ++ rows /\
    Forall2 (row_of_item category_rows) rows products_data /\
    map Product.product_id rows =
      map (fun i => next_rowid (map Product.product_id ps) + Z.of_nat i) (seq 0 17) /\
    Forall (fun row =>
              Forall (fun p => Product.product_id p < Product.product_id row) ps /\
              Product.product_id row <= max_rowid)
      rows /\
    ascending (map Product.product_id rows).
Proof.
  intros Hroom.
  destruct staged_ready as (Hnd & _ & _).
  destruct (flush_all_new_products (pending staged) staged_items
              (MkState (MkStore category_rows ps) (MkStore category_rows ps)
                 (heap staged) (pending staged) (trace staged ++ []))
              Hnd staged_holds_items)
    as (s1 & Hrun & Hdb & Htxn & Hp).
  cbn [db txn categories products pending] in Hdb, Htxn, Hp.
  destruct (insert_products_spec staged_items ps) as (rows & Heq & Hitems & Habove & Hasc).
  pose proof (insert_products_ids staged_items ps rows Heq) as Hids.
  change (length staged_items) with 17%nat in Hids.
  eexists _, rows. split.
  { unfold Session. rewrite populate_stage_commit, run_bind, stage_run.
    unfold commit. rewrite run_bind. unfold flush. cbn [pending]. rewrite Hrun.
    cbv beta iota. unfold set_pending. rewrite Htxn. reflexivity. }
  cbn [db txn categories products].
  split; [ reflexivity | ]. split; [ exact Heq | ].
  split; [ | split; [ exact Hids | split; [ | exact Hasc ] ] ].
  - eapply Forall2_compose; [ | exact Hitems | exact staged_items_resolved ].
    intros row item seed Hrow (Hfields & c & Hc & Hname & Hid).
    cbv beta in Hrow. subst item. cbn [fst snd] in Hfields, Hid.
    unfold row_of_item. rewrite <- Hfields. cbn [fst snd].
    split; [ reflexivity | ]. split; [ reflexivity | ].
    exists c. split; [ exact Hc | split; [ exact Hname | exact Hid ] ].
  - assert (Forall (fun x => x <= max_rowid) (map Product.product_id rows)) as Hmax.
    { rewrite Hids.
      assert (next_rowid (map Product.product_id ps) <= max_rowid - 17 + 1) as Hnext.
      { apply next_rowid_le; [ unfold max_rowid; lia | ].
        rewrite Forall_map. exact Hroom. }
      rewrite Forall_map. apply Forall_forall. intros i Hi.
      apply list_elem_of_In, in_seq in Hi. cbv beta. lia. }
    rewrite Forall_map in Hmax.
    rewrite Forall_forall in Habove, Hmax. apply Forall_forall. intros row Hrow.
    split; [ exact (Habove row Hrow) | exact (Hmax row Hrow) ].
Qed.

Lemma X9_populate_appends_witness :
  let kite := Product.Row 40 "Kite" (decimal 999) 9 in
  Forall (fun p => Product.product_id p <= max_rowid - 17) [kite] /\
  exists s' rows,
    populate_sample_data (Session (MkStore [] [kite])) = (Return tt, s') /\
    products (db s') = kite :: rows /\
    map Product.product_id rows = map (fun i => 41 + Z.of_nat i) (seq 0 17).
Proof.
  cbv zeta.
  assert (Forall (fun p => Product.product_id p <= max_rowid - 17)
            [Product.Row 40 "Kite" (decimal 999) 9]) as Hroom.
  { constructor; [ | constructor ]. cbn [Product.product_id]. unfold max_rowid. lia. }
  split; [ exact Hroom | ].
  destruct (X9_populate_appends_seed_products _ Hroom)
    as (s' & rows & Hrun & _ & Hps & _ & Hids & _).
  exists s', rows. split; [ exact Hrun | ]. split; [ exact Hps | exact Hids ].
Defined.

(** ** Invariants of the tables *)

Section StoreInvariant.
Variable P : Store -> Prop.
Hypothesis P_category :
  forall st name,
    P st ->
    existsb (String.eqb name) (map Category.category_name (categories st)) = false ->
    P (MkStore
         (categories st
            ++ [Category.Row (next_rowid (map Category.category_id (categories st))) name])
         (products st)).
Hypothesis P_product :
  forall st name price cid,
    P st ->
    P (MkStore (categories st)
         (products st
            ++ [Product.Row (next_rowid (map Product.product_id (products st)))
                  name price cid])).












End StoreInvariant.

(** *** Identifiers in a database that started out new *)












(** ** The most and the least expensive product *)





Section FirstBy.
Variable better : float -> float -> bool.
Hypothesis better_irrefl : forall x, better x x = false.
Hypothesis better_chain :
  forall b q p, better q b = true -> better p b = false -> better p q = false.


End FirstBy.


